(** * VacationSync: the Flask proxy in front of the Amadeus travel API

    A shallow embedding of [flask_backend/app.py]: the parameter validators,
    the cached access token with its refresh, the authenticated GET helper and
    the three search routes, followed by the properties of the specification
    that were checked against them.

    Conventions of the embedding.
    - A Python [str] is a [string]; the model covers ASCII text (letters,
      digits and white space outside ASCII are not recognised as such).
    - A value that may be [None] is an [option]; [request.args] is a finite
      map from names to (first) values.
    - A raised exception is the [Raise] outcome; [try]/[except] is the
      combinator [try_except], with the handler's class filter written out.
    - [datetime.now()], [requests.post] and [requests.get] read an oracle; every
      network call is appended to a trace.
    - [print] calls are left out. *)

From Stdlib Require Import ZArith Ascii String List Lia Bool.
From Stdlib Require Import DecimalString Floats.
From stdpp Require Import base option gmap strings fin_maps.

Local Open Scope string_scope.
Local Open Scope Z_scope.

(** ** Python outcomes *)

Module Py.

Inductive exn :=
  | ValueError (msg : string)
  | TypeError
  | KeyError (key : string)
  | AttributeError
  | OverflowError
  | RequestException.

Inductive outcome (A : Type) :=
  | Return (a : A)
  | Raise (e : exn).
Arguments Return {A} a.
Arguments Raise {A} e.

Definition obind {A B} (m : outcome A) (k : A -> outcome B) : outcome B :=
  match m with
  | Return a => k a
  | Raise e => Raise e
  end.

(** [try: body except (classes): handler]: the handler runs on the exceptions
    [catches] selects, any other exception goes on to the caller. *)
Definition try_except {A} (body : outcome A) (catches : exn -> bool)
    (handler : exn -> outcome A) : outcome A :=
  match body with
  | Return a => Return a
  | Raise e => if catches e then handler e else Raise e
  end.

Definition is_ValueError (e : exn) : bool :=
  match e with ValueError _ => true | _ => false end.

Definition is_ValueError_or_TypeError (e : exn) : bool :=
  match e with ValueError _ | TypeError => true | _ => false end.

Definition is_RequestException (e : exn) : bool :=
  match e with RequestException => true | _ => false end.

(** [except Exception]: every class above derives from [Exception]. *)
Definition is_Exception (e : exn) : bool := true.

End Py.
Export Py.

#[global] Instance outcome_bind : MBind outcome := fun A B k m => obind m k.
#[global] Instance outcome_ret : MRet outcome := fun A a => Return a.

(** ** Strings *)

Definition ord (c : ascii) : Z := Z.of_N (N_of_ascii c).

Definition is_digit (c : ascii) : bool := (48 <=? ord c) && (ord c <=? 57).
Definition is_upper (c : ascii) : bool := (65 <=? ord c) && (ord c <=? 90).
Definition is_lower (c : ascii) : bool := (97 <=? ord c) && (ord c <=? 122).
Definition is_alpha (c : ascii) : bool := is_upper c || is_lower c.

(** White space as [str.strip] and [int] see it: TAB..CR, FS..US and SPACE. *)
Definition is_space (c : ascii) : bool :=
  ((9 <=? ord c) && (ord c <=? 13)) || ((28 <=? ord c) && (ord c <=? 32)).

Definition chars (s : string) : list ascii := list_ascii_of_string s.

(** [len(s)] *)
Definition len (s : string) : Z := Z.of_nat (String.length s).

(** [s.isalpha()]: at least one character and all of them letters. *)
Definition isalpha (s : string) : bool :=
  match chars s with
  | [] => false
  | cs => forallb is_alpha cs
  end.

Definition upper_char (c : ascii) : ascii :=
  if is_lower c then ascii_of_N (Z.to_N (ord c - 32)) else c.

(** [s.upper()] *)
Fixpoint upper (s : string) : string :=
  match s with
  | EmptyString => EmptyString
  | String c r => String (upper_char c) (upper r)
  end.

Fixpoint starts_with (p s : list ascii) : bool :=
  match p, s with
  | [], _ => true
  | _ :: _, [] => false
  | a :: p', b :: s' => if Ascii.eqb a b then starts_with p' s' else false
  end.

Fixpoint is_infix (p s : list ascii) : bool :=
  starts_with p s ||
  match s with
  | [] => false
  | _ :: s' => is_infix p s'
  end.

(** [needle in hay] on two strings. *)
Definition contains (needle hay : string) : bool :=
  is_infix (chars needle) (chars hay).

(** [str(n)] for an [int]. *)
Definition str_of_int (n : Z) : string := NilZero.string_of_int (Z.to_int n).

(** Truth value of a [str] or [None]: [None] and the empty string are false. *)
Definition truthy_str (v : option string) : bool :=
  match v with
  | None => false
  | Some s => negb (String.eqb s "")
  end.

(** ** [int(str)] *)

Fixpoint lstrip (l : list ascii) : list ascii :=
  match l with
  | c :: r => if is_space c then lstrip r else l
  | [] => []
  end.

Definition strip (l : list ascii) : list ascii :=
  rev (lstrip (rev (lstrip l))).

Definition digit_val (c : ascii) : Z := ord c - 48.

(** Decimal digits, single underscores allowed between two digits. Returns the
    value and the number of digits read. *)
Fixpoint parse_digits (l : list ascii) (acc : Z) (n : Z) : option (Z * Z) :=
  match l with
  | [] => None
  | c :: rest =>
      if is_digit c then
        let acc' := 10 * acc + digit_val c in
        match rest with
        | [] => Some (acc', n + 1)
        | u :: rest' =>
            if Ascii.eqb u "_" then parse_digits rest' acc' (n + 1)
            else parse_digits rest acc' (n + 1)
        end
      else None
  end.

(** CPython's limit on the digits of a decimal literal converted by [int]. *)
Definition max_str_digits : Z := 4300.

Definition invalid_literal : exn := ValueError "invalid literal for int() with base 10".

Definition int_of_chars (l : list ascii) : outcome Z :=
  let body := strip l in
  let '(neg, ds) :=
    match body with
    | c :: r =>
        if Ascii.eqb c "-" then (true, r)
        else if Ascii.eqb c "+" then (false, r)
        else (false, body)
    | [] => (false, body)
    end in
  match parse_digits ds 0 0 with
  | None => Raise invalid_literal
  | Some (v, n) =>
      if max_str_digits <? n then Raise (ValueError "Exceeds the limit for integer string conversion")
      else Return (if neg : bool then - v else v)
  end.

(** [int(s)] for a [str]. *)
Definition int_of_str (s : string) : outcome Z := int_of_chars (chars s).

(** ** Regular expressions of the [re] module

    The fragment the program uses: literals, [\d], character ranges,
    sequence, ordered alternative, [^] and [$]. The matcher is the
    backtracking one of [re]: alternatives are tried from left to right and the
    first way to reach the end of the pattern wins. [i] is the position in the
    subject, the continuation [k] stands for the rest of the pattern. *)

Inductive regex :=
  | RChar (c : ascii)
  | RDigit
  | RRange (lo hi : ascii)
  | RSeq (r1 r2 : regex)
  | RAlt (r1 r2 : regex)
  | RBegin
  | REnd.

Definition newline : ascii := ascii_of_N 10.

Definition step_if {A} (ok : ascii -> bool) (i : nat) (s : list ascii)
    (k : nat -> list ascii -> option A) : option A :=
  match s with
  | x :: s' => if ok x then k (S i) s' else None
  | [] => None
  end.

Definition in_range (lo hi x : ascii) : bool :=
  (ord lo <=? ord x) && (ord x <=? ord hi).

Fixpoint run {A} (r : regex) (i : nat) (s : list ascii)
    (k : nat -> list ascii -> option A) : option A :=
  match r with
  | RChar c => step_if (fun x => Ascii.eqb x c) i s k
  | RDigit => step_if is_digit i s k
  | RRange lo hi => step_if (in_range lo hi) i s k
  | RSeq r1 r2 => run r1 i s (fun j t => run r2 j t k)
  | RAlt r1 r2 =>
      match run r1 i s k with
      | Some a => Some a
      | None => run r2 i s k
      end
  | RBegin => if Nat.eqb i 0 then k i s else None
  | REnd =>
      (* [$] holds at the end and just before a newline that ends the subject *)
      match s with
      | [] => k i s
      | [x] => if Ascii.eqb x newline then k i s else None
      | _ => None
      end
  end.

(** [re.match(r, s)]: the end position of the match, if there is one. *)
Definition re_match (r : regex) (s : string) : option nat :=
  run r 0%nat (chars s) (fun j _ => Some j).

(** Truth value of what [re.match] returns. *)
Definition matched (m : option nat) : bool :=
  match m with Some _ => true | None => false end.

Definition rdigits (n : nat) : regex :=
  Nat.iter n (fun r => RSeq RDigit r) RDigit.

(** [r'^\d{4}-\d{2}-\d{2}$'] *)
Definition date_regex : regex :=
  RSeq RBegin
    (RSeq (rdigits 3) (RSeq (RChar "-") (RSeq (rdigits 1) (RSeq (RChar "-")
      (RSeq (rdigits 1) REnd))))).

(** ** [datetime.strptime(s, '%Y-%m-%d')] *)

(** The groups [_strptime] compiles the directives to. *)
Definition re_Y : regex := rdigits 3.
Definition re_m : regex :=
  RAlt (RSeq (RChar "1") (RRange "0" "2"))
    (RAlt (RSeq (RChar "0") (RRange "1" "9")) (RRange "1" "9")).
Definition re_d : regex :=
  RAlt (RSeq (RChar "3") (RRange "0" "1"))
    (RAlt (RSeq (RRange "1" "2") RDigit)
      (RAlt (RSeq (RChar "0") (RRange "1" "9"))
        (RAlt (RRange "1" "9") (RSeq (RChar " ") (RRange "1" "9"))))).

(** [s[i:j]] *)
Definition slice (s : list ascii) (i j : nat) : list ascii :=
  firstn (j - i) (skipn i s).

(** The compiled format matched at the start of [s]: the three groups and the
    end of the match. *)
Definition strptime_groups (s : list ascii)
    : option (list ascii * list ascii * list ascii * nat) :=
  run re_Y 0%nat s (fun i1 s1 =>
  run (RChar "-") i1 s1 (fun i2 s2 =>
  run re_m i2 s2 (fun i3 s3 =>
  run (RChar "-") i3 s3 (fun i4 s4 =>
  run re_d i4 s4 (fun i5 _ =>
    Some (slice s 0 i1, slice s i2 i3, slice s i4 i5, i5)))))).

Definition MINYEAR : Z := 1.
Definition MAXYEAR : Z := 9999.

Definition is_leap (year : Z) : bool :=
  (year mod 4 =? 0) && (negb (year mod 100 =? 0) || (year mod 400 =? 0)).

Definition days_in_month (year month : Z) : Z :=
  if (month =? 2) && is_leap year then 29
  else nth (Z.to_nat month) [0; 31; 28; 31; 30; 31; 30; 31; 31; 30; 31; 30; 31] 0.

(** The checks of the [date] constructor. *)
Definition check_date_fields (year month day : Z) : outcome (Z * Z * Z) :=
  if negb ((MINYEAR <=? year) && (year <=? MAXYEAR)) then
    Raise (ValueError "year must be in 1..9999")
  else if negb ((1 <=? month) && (month <=? 12)) then
    Raise (ValueError "month must be in 1..12")
  else if negb ((1 <=? day) && (day <=? days_in_month year month)) then
    Raise (ValueError "day is out of range for month")
  else Return (year, month, day).

Definition strptime_Ymd (s : string) : outcome (Z * Z * Z) :=
  match strptime_groups (chars s) with
  | None => Raise (ValueError "time data does not match format")
  | Some (gY, gm, gd, stop) =>
      if negb (Nat.eqb (length (chars s)) stop) then
        Raise (ValueError "unconverted data remains")
      else
        year ← int_of_chars gY;
        month ← int_of_chars gm;
        day ← int_of_chars gd;
        check_date_fields year month day
  end.

(** ** The validators *)

(** [validate_city_code(city_code)] *)
Definition validate_city_code (city_code : option string) : outcome string :=
  match city_code with
  | None => Raise (ValueError "City code must be exactly 3 letters")
  | Some s =>
      if negb (truthy_str city_code) || negb (len s =? 3) || negb (isalpha s) then
        Raise (ValueError "City code must be exactly 3 letters")
      else Return (upper s)
  end.

(** [validate_date(date_str, field_name)] *)
Definition validate_date (date_str : option string) (field_name : string)
    : outcome string :=
  match date_str with
  | None => Raise (ValueError (field_name +:+ " must be in YYYY-MM-DD format"))
  | Some s =>
      if negb (truthy_str date_str) || negb (matched (re_match date_regex s)) then
        Raise (ValueError (field_name +:+ " must be in YYYY-MM-DD format"))
      else
        try_except
          (_ ← strptime_Ymd s; Return s)
          is_ValueError
          (fun _ => Raise (ValueError (field_name +:+ " is not a valid date")))
  end.

(** [str(ValueError)]: the text of the class object, which is what the
    handlers of the numeric validators inspect. *)
Definition str_ValueError_class : string := "<class 'ValueError'>".

(** [validate_positive_int(value_str, field_name, min_val, max_val)] *)
Definition validate_positive_int (value_str : option string) (field_name : string)
    (min_val max_val : Z) : outcome Z :=
  match value_str with
  | None => Raise (ValueError (field_name +:+ " is required"))
  | Some s =>
      if negb (truthy_str value_str) then
        Raise (ValueError (field_name +:+ " is required"))
      else
        try_except
          (num ← int_of_str s;
           if (num <? min_val) || (num >? max_val) then
             Raise (ValueError (field_name +:+ " must be between " +:+ str_of_int min_val
                                +:+ " and " +:+ str_of_int max_val))
           else Return num)
          is_ValueError_or_TypeError
          (fun e =>
             if negb (contains "must be between" str_ValueError_class) then
               Raise (ValueError (field_name +:+ " must be a valid integer"))
             else Raise e)
  end.

(** [validate_radius(radius_str)] *)
Definition validate_radius (radius_str : option string) : outcome Z :=
  match radius_str with
  | None => Return 20
  | Some s =>
      if negb (truthy_str radius_str) then Return 20
      else
        try_except
          (radius ← int_of_str s;
           if (radius <? 1) || (radius >? 100) then
             Raise (ValueError "Radius must be between 1 and 100 km")
           else Return radius)
          is_ValueError_or_TypeError
          (fun e =>
             if negb (contains "must be between" str_ValueError_class) then
               Raise (ValueError "Radius must be a valid integer")
             else Raise e)
  end.

Section FloatValidators.

(** [float(s)] for a [str]: the conversion of a decimal literal to the nearest
    binary64 number is not modelled; the validators are given over any such
    conversion. *)
Variable float_of_str : string -> outcome float.

(** [validate_latitude(lat_str)] *)
Definition validate_latitude (lat_str : option string) : outcome float :=
  match lat_str with
  | None => Raise (ValueError "Latitude is required")
  | Some s =>
      if negb (truthy_str lat_str) then Raise (ValueError "Latitude is required")
      else
        try_except
          (lat ← float_of_str s;
           if (lat <? -90)%float || (90 <? lat)%float then
             Raise (ValueError "Latitude must be between -90 and 90")
           else Return lat)
          is_ValueError_or_TypeError
          (fun e =>
             if negb (contains "must be between" str_ValueError_class) then
               Raise (ValueError "Latitude must be a valid number")
             else Raise e)
  end.

(** [validate_longitude(lng_str)] *)
Definition validate_longitude (lng_str : option string) : outcome float :=
  match lng_str with
  | None => Raise (ValueError "Longitude is required")
  | Some s =>
      if negb (truthy_str lng_str) then Raise (ValueError "Longitude is required")
      else
        try_except
          (lng ← float_of_str s;
           if (lng <? -180)%float || (180 <? lng)%float then
             Raise (ValueError "Longitude must be between -180 and 180")
           else Return lng)
          is_ValueError_or_TypeError
          (fun e =>
             if negb (contains "must be between" str_ValueError_class) then
               Raise (ValueError "Longitude must be a valid number")
             else Raise e)
  end.

End FloatValidators.

(** ** Values decoded from JSON *)

#[local] Set Warnings "-register-all".

Inductive json :=
  | JNull
  | JBool (b : bool)
  | JInt (n : Z)
  | JFloat (f : float)
  | JStr (s : string)
  | JList (l : list json)
  | JDict (d : gmap string json).

(** Truth value of a Python object. *)
Definition truthy (v : json) : bool :=
  match v with
  | JNull => false
  | JBool b => b
  | JInt n => negb (n =? 0)
  | JFloat f => negb (f =? 0)%float
  | JStr s => negb (String.eqb s "")
  | JList l => match l with [] => false | _ => true end
  | JDict d => negb (Nat.eqb (size d) 0)
  end.

(** [v[key]] for a string key. *)
Definition getitem (v : json) (key : string) : outcome json :=
  match v with
  | JDict d =>
      match d !! key with
      | Some x => Return x
      | None => Raise (KeyError key)
      end
  | _ => Raise TypeError
  end.

(** [v.get(key, default)] *)
Definition dict_get (v : json) (key : string) (dflt : json) : outcome json :=
  match v with
  | JDict d => Return (default dflt (d !! key))
  | _ => Raise AttributeError
  end.

(** [int(f)] for a float: truncation toward zero; infinities and NaN raise. *)
Definition int_of_float (f : float) : outcome Z :=
  match Prim2SF f with
  | S754_zero _ => Return 0
  | S754_infinity _ => Raise OverflowError
  | S754_nan => Raise (ValueError "cannot convert float NaN to integer")
  | S754_finite neg m e =>
      let mag :=
        match e with
        | Zneg p => Z.shiftr (Zpos m) (Zpos p)
        | _ => Z.shiftl (Zpos m) e
        end in
      Return (if neg then - mag else mag)
  end.

(** [int(v)] *)
Definition int_of_json (v : json) : outcome Z :=
  match v with
  | JInt n => Return n
  | JBool b => Return (if b then 1 else 0)
  | JFloat f => int_of_float f
  | JStr s => int_of_str s
  | JNull | JList _ | JDict _ => Raise TypeError
  end.

(** [key in v] for a string key: a key of a dict, an element of a list, a
    substring of a string; other objects are not containers. *)
Definition json_contains (key : string) (v : json) : outcome bool :=
  match v with
  | JDict d => Return (bool_decide (is_Some (d !! key)))
  | JList l =>
      Return (existsb (fun x => match x with JStr s => String.eqb s key | _ => false end) l)
  | JStr s => Return (contains key s)
  | _ => Raise TypeError
  end.

(** ** Time *)

(** A [datetime] is the number of microseconds since 0001-01-01T00:00:00; the
    last one is 9999-12-31T23:59:59.999999. *)
Definition datetime := Z.
Definition datetime_max : datetime := 3652059 * 86400 * 1000000 - 1.

(** [timedelta(seconds=n)], in microseconds. *)
Definition timedelta_seconds (n : Z) : outcome Z :=
  if 999999999 <? Z.abs (n / 86400) then Raise OverflowError
  else Return (n * 1000000).

(** [t + delta] *)
Definition datetime_add (t : datetime) (delta : Z) : outcome datetime :=
  if (t + delta <? 0) || (datetime_max <? t + delta) then Raise OverflowError
  else Return (t + delta).

(** ** The outside world *)

Inductive body :=
  | NotJson
  | Json (v : json).

(** What a call of [requests] comes back with: an exception of the library
    (no connection, timeout) or a response. *)
Inductive reply :=
  | NetworkFailure
  | Response (status_code : Z) (content : body).

Inductive pval :=
  | PStr (s : string)
  | PInt (n : Z)
  | PFloat (f : float).

Inductive event :=
  | EvPost (url : string)
  | EvGet (url : string) (bearer : json) (params : gmap string pval).

(** The configuration and the oracles: the [n]-th reading of the clock, the
    reply to the [n]-th network call of the process, and [float]. *)
Record env := {
  AMADEUS_BASE_URL : string;
  AMADEUS_ENV : string;
  now_at : nat -> datetime;
  reply_at : nat -> reply;
  float_of_str : string -> outcome float
}.

(** The two globals of the module, the clock readings made so far and the
    network calls made so far (oldest first). *)
Record world := {
  access_token : json;
  token_expires_at : option datetime;
  ticks : nat;
  trace : list event
}.

Definition M (A : Type) : Type := env -> world -> outcome A * world.

#[global] Instance M_ret : MRet M := fun A a _ w => (Return a, w).
#[global] Instance M_bind : MBind M := fun A B k m e w =>
  match m e w with
  | (Return a, w') => k a e w'
  | (Raise x, w') => (Raise x, w')
  end.

Definition lift {A} (o : outcome A) : M A := fun _ w => (o, w).

Definition ask : M env := fun e w => (Return e, w).

Definition get_world : M world := fun _ w => (Return w, w).

(** [try: body except (classes): handler] with effects: what the body did
    before it raised stays done. *)
Definition try_exceptM {A} (m : M A) (catches : exn -> bool) (handler : exn -> M A)
    : M A := fun e w =>
  match m e w with
  | (Return a, w') => (Return a, w')
  | (Raise x, w') => if catches x then handler x e w' else (Raise x, w')
  end.

(** The three ways the program changes the world. *)
Definition tick (w : world) : world :=
  {| access_token := access_token w; token_expires_at := token_expires_at w;
     ticks := S (ticks w); trace := trace w |}.

Definition log (ev : event) (w : world) : world :=
  {| access_token := access_token w; token_expires_at := token_expires_at w;
     ticks := ticks w; trace := trace w ++ [ev] |}.

Definition with_token (new_token : json) (expiry : datetime) (w : world) : world :=
  {| access_token := new_token; token_expires_at := Some expiry;
     ticks := ticks w; trace := trace w |}.

(** [datetime.now()] *)
Definition now : M datetime := fun e w => (Return (now_at e (ticks w)), tick w).

(** A network call: it is recorded, and the oracle says how it ends. *)
Definition network (ev : event) : M reply := fun e w =>
  (Return (reply_at e (length (trace w))), log ev w).

(** [access_token, token_expires_at = new_token, expiry] *)
Definition store_token (new_token : json) (expiry : datetime) : M unit := fun _ w =>
  (Return tt, with_token new_token expiry w).

(** A response object: its status and its body. *)
Definition response : Type := Z * body.

Definition received (r : reply) : outcome response :=
  match r with
  | NetworkFailure => Raise RequestException
  | Response st b => Return (st, b)
  end.

(** [requests.post(url, headers=..., data=..., timeout=15)] *)
Definition requests_post (url : string) : M response :=
  r ← network (EvPost url); lift (received r).

(** [requests.get(url, headers=..., params=..., timeout=20)] *)
Definition requests_get (url : string) (bearer : json) (params : gmap string pval)
    : M response :=
  r ← network (EvGet url bearer params); lift (received r).

(** [resp.raise_for_status()]: an [HTTPError] for a 4xx or 5xx status. *)
Definition raise_for_status (resp : response) : outcome unit :=
  if (400 <=? resp.1) && (resp.1 <? 600) then Raise RequestException
  else Return tt.

(** [resp.json()]: [requests]' own [JSONDecodeError] when the body is not JSON. *)
Definition resp_json (resp : response) : outcome json :=
  match resp.2 with
  | NotJson => Raise RequestException
  | Json v => Return v
  end.

(** ** The cached access token *)

(** [access_token and token_expires_at and datetime.now() < token_expires_at]:
    the clock is read only when both globals are set. *)
Definition cache_is_valid : M bool :=
  w ← get_world;
  if truthy (access_token w) then
    match token_expires_at w with
    | Some expires => t ← now; mret (t <? expires)
    | None => mret false
    end
  else mret false.

(** [get_amadeus_token()] *)
Definition get_amadeus_token : M json :=
  valid ← cache_is_valid;
  if valid : bool then
    w ← get_world; mret (access_token w)
  else
    e ← ask;
    let token_url := AMADEUS_BASE_URL e +:+ "/v1/security/oauth2/token" in
    try_exceptM
      (resp ← requests_post token_url;
       _ ← lift (raise_for_status resp);
       token_data ← lift (resp_json resp);
       new_token ← lift (getitem token_data "access_token");
       raw ← lift (dict_get token_data "expires_in" (JInt 1800));
       expires_in ← lift (int_of_json raw);
       t ← now;
       delta ← lift (timedelta_seconds (Z.max (expires_in - 300) 60));
       expiry ← lift (datetime_add t delta);
       _ ← store_token new_token expiry;
       w ← get_world; mret (access_token w))
      is_RequestException
      (fun _ => mret JNull).

(** [make_amadeus_request(endpoint, params)] *)
Definition make_amadeus_request (endpoint : string) (params : gmap string pval)
    : M json :=
  token ← get_amadeus_token;
  if negb (truthy token) then mret JNull
  else
    e ← ask;
    let url := AMADEUS_BASE_URL e +:+ endpoint in
    try_exceptM
      (resp ← requests_get url token params;
       _ ← lift (raise_for_status resp);
       lift (resp_json resp))
      is_RequestException
      (fun _ => mret JNull).

(** ** Routes *)

(** A view returns the JSON body and the status code. *)
Definition http_response : Type := json * Z.

Definition jsonify (fields : list (string * json)) : json :=
  JDict (list_to_map fields).

Definition json_strings (l : list string) : json := JList (JStr <$> l).

(** [str(e)] of an exception; the texts of the library's own exceptions are
    abridged. *)
Definition exn_text (x : exn) : string :=
  match x with
  | ValueError msg => msg
  | KeyError key => "'" +:+ key +:+ "'"
  | TypeError => "TypeError"
  | AttributeError => "AttributeError"
  | OverflowError => "OverflowError"
  | RequestException => "RequestException"
  end.

Definition missing_parameters (required : list string) : http_response :=
  (jsonify [("success", JBool false);
            ("error", JStr "Missing required parameters");
            ("required", json_strings required)], 400).

Definition invalid_parameter (x : exn) : http_response :=
  (jsonify [("success", JBool false);
            ("error", JStr "Invalid parameter");
            ("message", JStr (exn_text x))], 400).

Definition not_found (what : string) : http_response :=
  (jsonify [("success", JBool false); ("error", JStr what)], 404).

Definition internal_error (x : exn) : http_response :=
  (jsonify [("success", JBool false);
            ("error", JStr "Internal server error");
            ("message", JStr (exn_text x))], 500).

(** [if result and "data" in result: ... else: ...], the tail of the three
    search views. *)
Definition search_result (result : json) (nothing : string) : outcome http_response :=
  has_data ← (if truthy result then json_contains "data" result else Return false);
  if has_data : bool then
    data ← getitem result "data";
    meta ← dict_get result "meta" (JDict ∅);
    Return (jsonify [("success", JBool true); ("data", data); ("meta", meta);
                     ("source", JStr "Amadeus")], 200)
  else Return (not_found nothing).

(** [all([...])] over query parameters. *)
Definition all_truthy (l : list (option string)) : bool := forallb truthy_str l.

Definition param_str (v : option string) : string := default "" v.

(** The [params] dictionary of [search_flights]: the literal, then the two
    optional entries. *)
Definition flight_params (origin destination departure_date adults travel_class : string)
    (return_date airline : option string) : gmap string pval :=
  let params : gmap string pval :=
    list_to_map
      [("originLocationCode", PStr (upper origin));
       ("destinationLocationCode", PStr (upper destination));
       ("departureDate", PStr departure_date);
       ("adults", PStr adults);
       ("travelClass", PStr (upper travel_class));
       ("currencyCode", PStr "USD");
       ("max", PInt 50)] in
  let params :=
    if truthy_str return_date
    then <["returnDate" := PStr (param_str return_date)]> params else params in
  if truthy_str airline
  then <["includedAirlineCodes" := PStr (upper (param_str airline))]> params
  else params.

(** [search_flights()], on the query parameters [args]. *)
Definition search_flights (args : gmap string string) : M http_response :=
  try_exceptM
    (let origin := args !! "origin" in
     let destination := args !! "destination" in
     let departure_date := args !! "departureDate" in
     let return_date := args !! "returnDate" in
     let adults := default "1" (args !! "adults") in
     let travel_class := default "ECONOMY" (args !! "travelClass") in
     let airline := args !! "airline" in
     if negb (all_truthy [origin; destination; departure_date]) then
       mret (missing_parameters ["origin"; "destination"; "departureDate"])
     else
       let params :=
         flight_params (param_str origin) (param_str destination)
           (param_str departure_date) adults travel_class return_date airline in
       result ← make_amadeus_request "/v2/shopping/flight-offers" params;
       lift (search_result result "No flights found"))
    is_Exception
    (fun x => mret (internal_error x)).

(** The inner [try] of [search_hotels]: the five validators in turn; its
    handler turns the first [ValueError] into the 400 response. *)
Definition hotel_validation (city_code check_in check_out adults_str room_qty_str
    : option string) : outcome (string * string * string * Z * Z + http_response) :=
  try_except
    (validated_city_code ← validate_city_code city_code;
     validated_check_in ← validate_date check_in "checkInDate";
     validated_check_out ← validate_date check_out "checkOutDate";
     validated_adults ← validate_positive_int adults_str "adults" 1 30;
     validated_room_qty ← validate_positive_int room_qty_str "roomQuantity" 1 10;
     Return (inl (validated_city_code, validated_check_in, validated_check_out,
                  validated_adults, validated_room_qty)))
    is_ValueError
    (fun validation_error => Return (inr (invalid_parameter validation_error))).

Definition hotel_params (validated_city_code validated_check_in validated_check_out
    : string) (validated_adults validated_room_qty : Z) : gmap string pval :=
  list_to_map
    [("cityCode", PStr validated_city_code);
     ("checkInDate", PStr validated_check_in);
     ("checkOutDate", PStr validated_check_out);
     ("adults", PStr (str_of_int validated_adults));
     ("roomQuantity", PStr (str_of_int validated_room_qty))].

(** [search_hotels()] *)
Definition search_hotels (args : gmap string string) : M http_response :=
  try_exceptM
    (let city_code := args !! "cityCode" in
     let check_in := args !! "checkInDate" in
     let check_out := args !! "checkOutDate" in
     let adults_str := Some (default "1" (args !! "adults")) in
     let room_qty_str := Some (default "1" (args !! "roomQuantity")) in
     if negb (all_truthy [city_code; check_in; check_out]) then
       mret (missing_parameters ["cityCode"; "checkInDate"; "checkOutDate"])
     else
       v ← lift (hotel_validation city_code check_in check_out adults_str room_qty_str);
       match v with
       | inr bad_request => mret bad_request
       | inl (validated_city_code, validated_check_in, validated_check_out,
              validated_adults, validated_room_qty) =>
           let params :=
             hotel_params validated_city_code validated_check_in validated_check_out
               validated_adults validated_room_qty in
           result ← make_amadeus_request "/v3/shopping/hotel-offers" params;
           lift (search_result result "No hotels found")
       end)
    is_Exception
    (fun x => mret (internal_error x)).

(** The inner [try] of [search_activities]. *)
Definition activity_validation (fos : string -> outcome float)
    (latitude_str longitude_str radius_str : option string)
    : outcome (float * float * Z + http_response) :=
  try_except
    (validated_latitude ← validate_latitude fos latitude_str;
     validated_longitude ← validate_longitude fos longitude_str;
     validated_radius ← validate_radius radius_str;
     Return (inl (validated_latitude, validated_longitude, validated_radius)))
    is_ValueError
    (fun validation_error => Return (inr (invalid_parameter validation_error))).

Definition activity_params (validated_latitude validated_longitude : float)
    (validated_radius : Z) : gmap string pval :=
  list_to_map
    [("latitude", PFloat validated_latitude);
     ("longitude", PFloat validated_longitude);
     ("radius", PStr (str_of_int validated_radius))].

(** [search_activities()] *)
Definition search_activities (args : gmap string string) : M http_response :=
  try_exceptM
    (let latitude_str := args !! "latitude" in
     let longitude_str := args !! "longitude" in
     let radius_str := Some (default "20" (args !! "radius")) in
     if negb (all_truthy [latitude_str; longitude_str]) then
       mret (missing_parameters ["latitude"; "longitude"])
     else
       e ← ask;
       v ← lift (activity_validation (float_of_str e) latitude_str longitude_str radius_str);
       match v with
       | inr bad_request => mret bad_request
       | inl (validated_latitude, validated_longitude, validated_radius) =>
           let params :=
             activity_params validated_latitude validated_longitude validated_radius in
           result ← make_amadeus_request "/v1/shopping/activities" params;
           lift (search_result result "No activities found")
       end)
    is_Exception
    (fun x => mret (internal_error x)).

(** [health_check()]: the view has no handler of its own; an exception that
    leaves [get_amadeus_token] leaves the view. The timestamp is kept as the
    clock reading, not as its ISO text. *)
Definition health_check : M http_response :=
  token ← get_amadeus_token;
  e ← ask;
  t ← now;
  mret (jsonify [("status", JStr "healthy");
                 ("amadeus_env", JStr (AMADEUS_ENV e));
                 ("amadeus_token", JStr (if truthy token then "valid" else "invalid"));
                 ("timestamp", JInt t)],
        200).

(** ** The date rule of the specification

    "matches YYYY-MM-DD literally, and is a calendar-valid date", written
    without the regular expressions and the parser of the code. *)

Definition digits_value (l : list ascii) : Z :=
  fold_left (fun acc c => 10 * acc + (ord c - 48)) l 0.

(** The year, month and day of a string of the form YYYY-MM-DD. *)
Definition YYYY_MM_DD (s : string) : option (Z * Z * Z) :=
  match chars s with
  | [y1; y2; y3; y4; h1; m1; m2; h2; d1; d2] =>
      if is_digit y1 && is_digit y2 && is_digit y3 && is_digit y4 && Ascii.eqb h1 "-"
         && is_digit m1 && is_digit m2 && Ascii.eqb h2 "-"
         && is_digit d1 && is_digit d2
      then Some (digits_value [y1; y2; y3; y4], digits_value [m1; m2],
                 digits_value [d1; d2])
      else None
  | _ => None
  end.

Definition leap_year (y : Z) : bool :=
  if y mod 400 =? 0 then true
  else if y mod 100 =? 0 then false
  else y mod 4 =? 0.

Definition month_length (y m : Z) : Z :=
  if m =? 2 then (if leap_year y then 29 else 28)
  else if (m =? 4) || (m =? 6) || (m =? 9) || (m =? 11) then 30
  else 31.

(** A date of the Gregorian calendar, which has no year 0. *)
Definition calendar_date (y m d : Z) : bool :=
  (1 <=? y) && (1 <=? m) && (m <=? 12) && (1 <=? d) && (d <=? month_length y m).

Definition real_calendar_date (s : string) : bool :=
  match YYYY_MM_DD s with
  | Some (y, m, d) => calendar_date y m d
  | None => false
  end.

(** ** The vocabulary of the specification's token and validation rules *)

(** "A cached credential exists and now < expiresAt", [now] being the next
    reading of the clock. *)
Definition credential_fresh (e : env) (w : world) : bool :=
  truthy (access_token w) &&
  match token_expires_at w with
  | Some expires => now_at e (ticks w) <? expires
  | None => false
  end.

(** The world after the test of the cache: the clock has been read when both
    globals were set. *)
Definition after_cache_check (w : world) : world :=
  if truthy (access_token w) then
    match token_expires_at w with
    | Some _ => tick w
    | None => w
    end
  else w.

Definition token_url (e : env) : string :=
  AMADEUS_BASE_URL e +:+ "/v1/security/oauth2/token".

(** [n] seconds, in the unit of [datetime]. *)
Definition seconds (n : Z) : Z := n * 1000000.

(** The exception a validator ended with, if it did. *)
Definition failure {A} (o : outcome A) : option exn :=
  match o with
  | Return _ => None
  | Raise x => Some x
  end.

(** "The first encountered": the first failure of a list of checks. *)
Fixpoint first_failure (checks : list (option exn)) : option exn :=
  match checks with
  | [] => None
  | Some x :: _ => Some x
  | None :: rest => first_failure rest
  end.

(** The checks of the hotels view on its parameters, in the order of the code. *)
Definition hotel_checks (args : gmap string string) : list (option exn) :=
  [failure (validate_city_code (args !! "cityCode"));
   failure (validate_date (args !! "checkInDate") "checkInDate");
   failure (validate_date (args !! "checkOutDate") "checkOutDate");
   failure (validate_positive_int (Some (default "1" (args !! "adults"))) "adults" 1 30);
   failure (validate_positive_int (Some (default "1" (args !! "roomQuantity")))
              "roomQuantity" 1 10)].

Definition hotel_required (args : gmap string string) : bool :=
  all_truthy [args !! "cityCode"; args !! "checkInDate"; args !! "checkOutDate"].

Definition flight_required (args : gmap string string) : bool :=
  all_truthy [args !! "origin"; args !! "destination"; args !! "departureDate"].

Definition activity_required (args : gmap string string) : bool :=
  all_truthy [args !! "latitude"; args !! "longitude"].


(** ** A sample environment *)

Definition sample_float (s : string) : outcome float :=
  if String.eqb s "40.5" then Return 40.5%float
  else if String.eqb s "-74" then Return (-74)%float
  else if String.eqb s "91" then Return 91%float
  else if String.eqb s "181" then Return 181%float
  else Raise (ValueError "could not convert string to float").

(** Replies and clock readings taken from lists; past their end the network
    is down and the clock shows [0]. *)
Definition sample_env (replies : list reply) (clock : list datetime) : env :=
  {| AMADEUS_BASE_URL := "https://test.api.amadeus.com";
     AMADEUS_ENV := "test";
     now_at := fun n => nth n clock 0;
     reply_at := fun n => nth n replies NetworkFailure;
     float_of_str := sample_float |}.

Definition token_reply (fields : list (string * json)) : reply :=
  Response 200 (Json (jsonify fields)).

(** A process that holds a token valid until time 2000. *)
Definition cached_world : world :=
  {| access_token := JStr "cached-token"; token_expires_at := Some 2000;
     ticks := 0; trace := [] |}.

Definition flight_args : gmap string string :=
  list_to_map [("origin", "jfk"); ("destination", "lax"); ("departureDate", "2025-08-20")].

(** Parameters that break the city code rule. *)
Definition odd_flight_args : gmap string string :=
  list_to_map [("origin", "newyork"); ("destination", "q7"); ("departureDate", "soon")].

Definition hotel_args : gmap string string :=
  list_to_map [("cityCode", "lax"); ("checkInDate", "2025-08-20");
               ("checkOutDate", "2025-08-22")].

Definition activity_args : gmap string string :=
  list_to_map [("latitude", "40.5"); ("longitude", "-74")].

(** The process right after start. *)
Definition fresh_world : world :=
  {| access_token := JNull; token_expires_at := None; ticks := 0; trace := [] |}.

(** ** What the two patterns accept, as plain tests

    [date_shape] is the set of strings [date_regex] matches; [two_digit_month]
    and [two_digit_day] are the two-character alternatives of the month and
    day groups of [strptime]. They are proved equal to the runs of the
    matcher below. *)

Definition date_shape (l : list ascii) : bool :=
  match l with
  | y1 :: y2 :: y3 :: y4 :: h1 :: m1 :: m2 :: h2 :: d1 :: d2 :: tl =>
      is_digit y1 && is_digit y2 && is_digit y3 && is_digit y4 && Ascii.eqb h1 "-"
      && is_digit m1 && is_digit m2 && Ascii.eqb h2 "-" && is_digit d1 && is_digit d2
      && match tl with
         | [] => true
         | [x] => Ascii.eqb x newline
         | _ => false
         end
  | _ => false
  end.

Definition two_digit_month (m1 m2 : ascii) : bool :=
  (Ascii.eqb m1 "1" && in_range "0" "2" m2) || (Ascii.eqb m1 "0" && in_range "1" "9" m2).

Definition two_digit_day (d1 d2 : ascii) : bool :=
  (Ascii.eqb d1 "3" && in_range "0" "1" d2)
  || in_range "1" "2" d1
  || (Ascii.eqb d1 "0" && in_range "1" "9" d2).

(** The tail shared by the three search views, under their
    [except Exception]: the answer to what [make_amadeus_request] returned. *)
Definition answer (nothing : string) (r : outcome json * world) : outcome http_response * world :=
  match r with
  | (Return result, w1) =>
      (match search_result result nothing with
       | Return resp => Return resp
       | Raise x => Return (internal_error x)
       end, w1)
  | (Raise x, w1) => (Return (internal_error x), w1)
  end.

(** An upstream reply with one offer. *)
Definition offers_reply : reply :=
  Response 200 (Json (jsonify [("data", JList [JStr "offer-1"])])).

(** * Checks of the model on concrete inputs *)

Example int_of_str_31 : int_of_str "31" = Return 31.
Proof. reflexivity. Qed.

Example int_of_str_spaces : int_of_str " -1_0 " = Return (-10).
Proof. reflexivity. Qed.

Example int_of_str_abc : int_of_str "abc" = Raise invalid_literal.
Proof. reflexivity. Qed.

Example str_of_int_neg : str_of_int (-90) = "-90".
Proof. reflexivity. Qed.

Example strptime_ok : strptime_Ymd "2024-02-29" = Return (2024, 2, 29).
Proof. reflexivity. Qed.

Example strptime_feb30 :
  strptime_Ymd "2025-02-30" = Raise (ValueError "day is out of range for month").
Proof. reflexivity. Qed.

Example strptime_day32 :
  strptime_Ymd "2025-01-32" = Raise (ValueError "unconverted data remains").
Proof. reflexivity. Qed.

Example strptime_month13 :
  strptime_Ymd "2025-13-01" = Raise (ValueError "time data does not match format").
Proof. reflexivity. Qed.

Example re_match_date : re_match date_regex "2025-02-30" = Some 10%nat.
Proof. reflexivity. Qed.

Example city_lax : validate_city_code (Some "lax") = Return "LAX".
Proof. reflexivity. Qed.

Example date_feb30 :
  validate_date (Some "2025-02-30") "checkInDate"
  = Raise (ValueError "checkInDate is not a valid date").
Proof. reflexivity. Qed.

Example adults_30 : validate_positive_int (Some "30") "adults" 1 30 = Return 30.
Proof. reflexivity. Qed.

Example adults_31 :
  validate_positive_int (Some "31") "adults" 1 30
  = Raise (ValueError "adults must be a valid integer").
Proof. reflexivity. Qed.

Example radius_default : validate_radius (Some "") = Return 20.
Proof. reflexivity. Qed.

Example latitude_91 :
  validate_latitude (fun _ => Return 91%float) (Some "91")
  = Raise (ValueError "Latitude must be a valid number").
Proof. reflexivity. Qed.

Example real_date_leap : real_calendar_date "2024-02-29" = true.
Proof. reflexivity. Qed.

Example real_date_feb30 : real_calendar_date "2025-02-30" = false.
Proof. reflexivity. Qed.

(** * Properties *)

(** ** Numeric validators *)

Lemma handler_condition : contains "must be between" str_ValueError_class = false.
Proof. reflexivity. Qed.

Lemma int_of_chars_raises l x : int_of_chars l = Raise x -> is_ValueError x = true.
Proof.
  unfold int_of_chars.
  destruct (match strip l with [] => _ | _ :: _ => _ end) as [neg ds].
  destruct (parse_digits ds 0 0) as [[v n]|]; [destruct (max_str_digits <? n)|];
    intros H; inversion H; reflexivity.
Qed.

Lemma int_of_str_raises s x : int_of_str s = Raise x -> is_ValueError x = true.
Proof. apply int_of_chars_raises. Qed.

(** Whatever the try block raises, the handler replaces it: the message of
    the range check is never the one that leaves the validator. *)
Lemma validate_positive_int_messages v field lo hi x :
  validate_positive_int v field lo hi = Raise x ->
  x = ValueError (field +:+ " is required")
  \/ x = ValueError (field +:+ " must be a valid integer").
Proof.
  unfold validate_positive_int. destruct v as [s|]; [|intros [= <-]; auto].
  destruct (truthy_str (Some s)); cbn [negb]; [|intros [= <-]; auto].
  unfold try_except. rewrite handler_condition. cbn [negb].
  destruct (int_of_str s) as [num|y] eqn:E; cbn.
  - destruct ((num <? lo) || (num >? hi)); cbn; intros [= <-]; auto.
  - apply int_of_str_raises in E. destruct y; try discriminate E.
    cbn. intros [= <-]; auto.
Qed.

Lemma validate_positive_int_out_of_range s field lo hi n :
  s <> "" -> int_of_str s = Return n -> n < lo \/ hi < n ->
  validate_positive_int (Some s) field lo hi
  = Raise (ValueError (field +:+ " must be a valid integer")).
Proof.
  intros Hs E Hn. unfold validate_positive_int, truthy_str.
  destruct (String.eqb_spec s ""); [contradiction|]. cbn [negb].
  rewrite E. cbn.
  replace ((n <? lo) || (n >? hi)) with true; [reflexivity|].
  symmetry. apply orb_true_iff. rewrite Z.ltb_lt, Z.gtb_gt. lia.
Qed.

Lemma validate_radius_out_of_range s n :
  s <> "" -> int_of_str s = Return n -> n < 1 \/ 100 < n ->
  validate_radius (Some s) = Raise (ValueError "Radius must be a valid integer").
Proof.
  intros Hs E Hn. unfold validate_radius, truthy_str.
  destruct (String.eqb_spec s ""); [contradiction|]. cbn [negb].
  rewrite E. cbn.
  replace ((n <? 1) || (n >? 100)) with true; [reflexivity|].
  symmetry. apply orb_true_iff. rewrite Z.ltb_lt, Z.gtb_gt. lia.
Qed.

Lemma validate_latitude_out_of_range fos s (x : float) :
  s <> "" -> fos s = Return x ->
  ((x <? -90)%float || (90 <? x)%float) = true ->
  validate_latitude fos (Some s) = Raise (ValueError "Latitude must be a valid number").
Proof.
  intros Hs E Hx. unfold validate_latitude, truthy_str.
  destruct (String.eqb_spec s ""); [contradiction|]. cbn [negb].
  rewrite E. cbn. rewrite Hx. reflexivity.
Qed.

Lemma validate_longitude_out_of_range fos s (x : float) :
  s <> "" -> fos s = Return x ->
  ((x <? -180)%float || (180 <? x)%float) = true ->
  validate_longitude fos (Some s) = Raise (ValueError "Longitude must be a valid number").
Proof.
  intros Hs E Hx. unfold validate_longitude, truthy_str.
  destruct (String.eqb_spec s ""); [contradiction|]. cbn [negb].
  rewrite E. cbn. rewrite Hx. reflexivity.
Qed.

(** C1 (defect of the code). A number outside the permitted range should be
    reported with the range message. The handlers test the text of the class
    [ValueError], not of the exception caught, so they always replace the
    range message: "31" for adults (maximum 30), "101" for the radius, 91 for
    the latitude and 181 for the longitude all fail with the very message of
    the non-numeric "abc". *)
Theorem range_failure_reported_as_parse_failure :
  validate_positive_int (Some "31") "adults" 1 30
    = Raise (ValueError "adults must be a valid integer")
  /\ validate_positive_int (Some "abc") "adults" 1 30
    = Raise (ValueError "adults must be a valid integer")
  /\ validate_positive_int (Some "11") "roomQuantity" 1 10
    = validate_positive_int (Some "abc") "roomQuantity" 1 10
  /\ validate_radius (Some "101") = Raise (ValueError "Radius must be a valid integer")
  /\ validate_radius (Some "abc") = Raise (ValueError "Radius must be a valid integer")
  /\ validate_latitude sample_float (Some "91")
    = Raise (ValueError "Latitude must be a valid number")
  /\ validate_latitude sample_float (Some "abc")
    = Raise (ValueError "Latitude must be a valid number")
  /\ validate_longitude sample_float (Some "181")
    = Raise (ValueError "Longitude must be a valid number")
  /\ validate_longitude sample_float (Some "abc")
    = Raise (ValueError "Longitude must be a valid number").
Proof. repeat split; reflexivity. Qed.

(** ** Characters and [int] on digit strings *)

Lemma ord_inj c d : ord c = ord d -> c = d.
Proof.
  unfold ord. intros H. apply N2Z.inj in H.
  rewrite <- (ascii_N_embedding c), <- (ascii_N_embedding d). now f_equal.
Qed.

Lemma eqb_ord c d : Ascii.eqb c d = (ord c =? ord d).
Proof.
  destruct (Ascii.eqb_spec c d) as [->|Hne].
  - now rewrite Z.eqb_refl.
  - symmetry. apply Z.eqb_neq. intros H. now apply Hne, ord_inj.
Qed.

Lemma is_digit_ord c : is_digit c = true <-> 48 <= ord c <= 57.
Proof. unfold is_digit. rewrite andb_true_iff, !Z.leb_le. tauto. Qed.

Lemma digit_not_space c : is_digit c = true -> is_space c = false.
Proof.
  rewrite is_digit_ord. intros H. unfold is_space.
  apply orb_false_iff; split; apply andb_false_iff; rewrite !Z.leb_gt; lia.
Qed.

Lemma digit_not_char c (d : ascii) :
  is_digit c = true -> is_digit d = false -> Ascii.eqb c d = false.
Proof.
  intros Hc Hd. destruct (Ascii.eqb_spec c d); [congruence|reflexivity].
Qed.

Lemma lstrip_digit c l : is_digit c = true -> lstrip (c :: l) = c :: l.
Proof. intros H. cbn. now rewrite digit_not_space. Qed.

Lemma strip_digits l : Forall (fun c => is_digit c = true) l -> strip l = l.
Proof.
  intros H. unfold strip.
  assert (Hl : forall k, Forall (fun c => is_digit c = true) k -> lstrip k = k).
  { intros k Hk. destruct Hk; [reflexivity|now apply lstrip_digit]. }
  rewrite (Hl l H). rewrite Hl by now apply Forall_rev. apply rev_involutive.
Qed.

Lemma parse_digits_digits l : forall acc n,
  l <> [] -> Forall (fun c => is_digit c = true) l ->
  parse_digits l acc n
  = Some (fold_left (fun a c => 10 * a + (ord c - 48)) l acc, n + Z.of_nat (length l)).
Proof.
  induction l as [|c rest IH]; intros acc n Hne H; [contradiction|].
  inversion H as [|? ? Hc Hrest]; subst.
  cbn [parse_digits]. rewrite Hc.
  destruct rest as [|u rest'].
  - cbn. reflexivity.
  - inversion Hrest as [|? ? Hu Hrest']; subst.
    rewrite (digit_not_char u "_" Hu eq_refl).
    rewrite IH by (try discriminate; assumption).
    unfold digit_val. cbn [fold_left length]. f_equal. f_equal. lia.
Qed.

(** [int] of a string of at most 4300 decimal digits is its decimal value. *)
Lemma int_of_chars_digits l :
  l <> [] -> Forall (fun c => is_digit c = true) l -> (length l <= 4300)%nat ->
  int_of_chars l = Return (digits_value l).
Proof.
  intros Hne H Hlen. unfold int_of_chars. rewrite strip_digits by assumption.
  destruct l as [|c r]; [contradiction|].
  inversion H as [|? ? Hc Hr]; subst.
  rewrite (digit_not_char c "-" Hc eq_refl), (digit_not_char c "+" Hc eq_refl).
  rewrite parse_digits_digits by assumption.
  unfold max_str_digits.
  destruct (Z.ltb_spec 4300 (0 + Z.of_nat (length (c :: r)))); [lia|reflexivity].
Qed.

(** ** Dates *)

Ltac split_test :=
  match goal with
  | |- context [if ?b then _ else _] =>
      lazymatch b with
      | context [if _ then _ else _] => fail
      | _ => destruct b eqn:?; cbn -[is_digit in_range Ascii.eqb newline]; try reflexivity
      end
  end.

Ltac sym_run := cbn -[is_digit in_range Ascii.eqb newline]; repeat split_test; try reflexivity.

Lemma date_regex_shape l :
  run date_regex 0%nat l (fun j _ => Some j) = if date_shape l then Some 10%nat else None.
Proof.
  do 11 (destruct l as [|? l]; [sym_run|]).
  destruct l; sym_run.
Qed.

Lemma strptime_groups_shape y1 y2 y3 y4 m1 m2 d1 d2 tl :
  Forall (fun c => is_digit c = true) [y1; y2; y3; y4; m1; m2; d1; d2] ->
  strptime_groups ([y1; y2; y3; y4; "-"%char; m1; m2; "-"%char; d1; d2] ++ tl)
  = if two_digit_month m1 m2 then
      if two_digit_day d1 d2 then Some ([y1; y2; y3; y4], [m1; m2], [d1; d2], 10%nat)
      else if in_range "1" "9" d1 then Some ([y1; y2; y3; y4], [m1; m2], [d1], 9%nat)
      else None
    else None.
Proof.
  intros H. repeat (apply Forall_cons_1 in H; destruct H as [? H]).
  assert (Hm2 : Ascii.eqb m2 "-" = false) by now apply digit_not_char.
  assert (Hd1 : Ascii.eqb d1 " " = false) by now apply digit_not_char.
  unfold strptime_groups, two_digit_month, two_digit_day.
  cbn -[is_digit in_range Ascii.eqb newline].
  repeat match goal with Hd : is_digit _ = true |- _ => rewrite Hd; clear Hd end.
  cbn -[is_digit in_range Ascii.eqb newline].
  change (Ascii.eqb "-" "-") with true. rewrite ?Hm2, ?Hd1, ?firstn_O. cbv iota.
  destruct (Ascii.eqb m1 "1") eqn:E1.
  - assert (E0 : Ascii.eqb m1 "0" = false).
    { apply Ascii.eqb_eq in E1. now subst. }
    rewrite E0. cbn -[is_digit in_range Ascii.eqb newline]. rewrite ?Hm2, ?Hd1.
    repeat split_test.
  - repeat split_test.
Qed.

Ltac bool_to_Z :=
  repeat match goal with
  | |- context [?a <=? ?b] => destruct (Z.leb_spec a b)
  | |- context [?a <? ?b] => destruct (Z.ltb_spec a b)
  | |- context [?a =? ?b] => destruct (Z.eqb_spec a b)
  end; cbn; try reflexivity; try lia.

Lemma two_digit_month_value m1 m2 :
  is_digit m1 = true -> is_digit m2 = true ->
  two_digit_month m1 m2
  = (1 <=? digits_value [m1; m2]) && (digits_value [m1; m2] <=? 12).
Proof.
  rewrite !is_digit_ord. intros H1 H2.
  unfold two_digit_month, in_range, digits_value. rewrite !eqb_ord.
  cbn [fold_left].
  change (ord "0") with 48. change (ord "1") with 49. change (ord "2") with 50.
  change (ord "9") with 57.
  bool_to_Z.
Qed.

Lemma two_digit_day_value d1 d2 :
  is_digit d1 = true -> is_digit d2 = true ->
  two_digit_day d1 d2
  = (1 <=? digits_value [d1; d2]) && (digits_value [d1; d2] <=? 31).
Proof.
  rewrite !is_digit_ord. intros H1 H2.
  unfold two_digit_day, in_range, digits_value. rewrite !eqb_ord.
  cbn [fold_left].
  change (ord "0") with 48. change (ord "1") with 49. change (ord "2") with 50.
  change (ord "3") with 51. change (ord "9") with 57.
  bool_to_Z.
Qed.

Lemma is_leap_leap_year y : is_leap y = leap_year y.
Proof.
  unfold is_leap, leap_year.
  destruct (Z.eqb_spec (y mod 400) 0), (Z.eqb_spec (y mod 100) 0),
    (Z.eqb_spec (y mod 4) 0); cbn; try reflexivity; exfalso;
    Z.div_mod_to_equations; lia.
Qed.

Lemma days_in_month_length y m :
  1 <= m <= 12 -> days_in_month y m = month_length y m.
Proof.
  intros H. unfold days_in_month, month_length. rewrite is_leap_leap_year.
  assert (Hm : m = 1 \/ m = 2 \/ m = 3 \/ m = 4 \/ m = 5 \/ m = 6 \/ m = 7 \/ m = 8
               \/ m = 9 \/ m = 10 \/ m = 11 \/ m = 12) by lia.
  repeat (destruct Hm as [-> | Hm]); try subst m; cbn; try reflexivity;
    destruct (leap_year y); reflexivity.
Qed.

Lemma month_length_le_31 y m : month_length y m <= 31.
Proof.
  unfold month_length.
  destruct (m =? 2); [destruct (leap_year y); lia|].
  destruct ((m =? 4) || (m =? 6) || (m =? 9) || (m =? 11)); lia.
Qed.

(** The constructor of [date] accepts exactly the calendar dates up to the
    year 9999. *)
Lemma check_date_fields_calendar y m d :
  y <= 9999 ->
  if calendar_date y m d then check_date_fields y m d = Return (y, m, d)
  else exists msg, check_date_fields y m d = Raise (ValueError msg).
Proof.
  intros Hy. unfold calendar_date, check_date_fields, MINYEAR, MAXYEAR.
  destruct (Z.leb_spec 1 y); cbn [andb negb]; [|eauto].
  destruct (Z.leb_spec y 9999); [|lia]. cbn [andb negb].
  destruct (Z.leb_spec 1 m); cbn [andb negb]; [|eauto].
  destruct (Z.leb_spec m 12); cbn [andb negb]; [|eauto].
  rewrite days_in_month_length by lia.
  destruct (Z.leb_spec 1 d); cbn [andb negb]; [|eauto].
  destruct (Z.leb_spec d (month_length y m)); cbn [andb negb]; eauto.
Qed.

Lemma digits_value_4_le y1 y2 y3 y4 :
  Forall (fun c => is_digit c = true) [y1; y2; y3; y4] ->
  digits_value [y1; y2; y3; y4] <= 9999.
Proof.
  intros H. repeat (apply Forall_cons_1 in H; destruct H as [? H]).
  repeat match goal with Hd : is_digit _ = true |- _ => apply is_digit_ord in Hd end.
  unfold digits_value. cbn [fold_left]. lia.
Qed.

Lemma strptime_Ymd_shape y1 y2 y3 y4 m1 m2 d1 d2 tl :
  Forall (fun c => is_digit c = true) [y1; y2; y3; y4; m1; m2; d1; d2] ->
  let s := string_of_list_ascii
             ([y1; y2; y3; y4; "-"%char; m1; m2; "-"%char; d1; d2] ++ tl) in
  let y := digits_value [y1; y2; y3; y4] in
  let m := digits_value [m1; m2] in
  let d := digits_value [d1; d2] in
  if calendar_date y m d && match tl with [] => true | _ => false end
  then strptime_Ymd s = Return (y, m, d)
  else exists msg, strptime_Ymd s = Raise (ValueError msg).
Proof.
  intros H s y m d. unfold strptime_Ymd, chars. subst s.
  rewrite list_ascii_of_string_of_list_ascii.
  rewrite strptime_groups_shape by assumption.
  pose proof H as H'. repeat (apply Forall_cons_1 in H'; destruct H' as [? H']).
  rewrite two_digit_month_value, two_digit_day_value by assumption.
  fold m d.
  assert (Hy : y <= 9999).
  { apply digits_value_4_le. repeat constructor; assumption. }
  pose proof (check_date_fields_calendar y m d Hy) as Hc.
  pose proof (month_length_le_31 y m) as H31.
  unfold calendar_date in *. revert Hc.
  destruct (Z.leb_spec 1 m); rewrite ?andb_false_r, ?andb_true_r; cbn [andb];
    [|intros _; eauto].
  destruct (Z.leb_spec m 12); rewrite ?andb_false_r, ?andb_true_r; cbn [andb];
    [|intros _; eauto].
  destruct (Z.leb_spec 1 d); rewrite ?andb_false_r, ?andb_true_r; cbn [andb].
  2:{ intros _. destruct (in_range "1" "9" d1); cbn; eauto. }
  destruct (Z.leb_spec d 31); cbn [andb].
  2:{ destruct (Z.leb_spec d (month_length y m)); [lia|].
      rewrite ?andb_false_r, ?andb_true_r; cbn [andb].
      intros _. destruct (in_range "1" "9" d1); cbn; eauto. }
  destruct tl as [|x tl]; rewrite ?andb_false_r, ?andb_true_r.
  - intros Hc. cbn [length app Nat.eqb negb].
    rewrite !int_of_chars_digits; cbn [length]; try lia; try discriminate;
      try (repeat constructor; assumption).
  - intros _. cbn. eauto.
Qed.


(** ** The token manager, the gateway and the views *)

Ltac munfold :=
  unfold try_exceptM, requests_post, requests_get, network, store_token, now,
    mbind, M_bind, mret, M_ret, lift, ask, get_world.

Lemma cache_is_valid_eval e w :
  cache_is_valid e w = (Return (credential_fresh e w), after_cache_check w).
Proof.
  unfold cache_is_valid, credential_fresh, after_cache_check. munfold.
  destruct (truthy (access_token w)); [|reflexivity].
  destruct (token_expires_at w); reflexivity.
Qed.

Lemma after_cache_check_trace w : trace (after_cache_check w) = trace w.
Proof.
  unfold after_cache_check. destruct (truthy _); [|reflexivity].
  destruct (token_expires_at w); reflexivity.
Qed.


Lemma get_amadeus_token_cached e w :
  credential_fresh e w = true ->
  get_amadeus_token e w = (Return (access_token w), tick w).
Proof.
  intros H. unfold get_amadeus_token. munfold.
  rewrite cache_is_valid_eval, H.
  unfold credential_fresh in H. unfold after_cache_check.
  destruct (truthy (access_token w)); [|discriminate].
  destruct (token_expires_at w); [reflexivity|discriminate].
Qed.

(** The refresh, evaluated: what [get_amadeus_token] does when the cache does
    not serve the call, by cases on the reply of the token endpoint. *)
Lemma get_amadeus_token_refresh e w :
  credential_fresh e w = false ->
  get_amadeus_token e w =
  let w1 := log (EvPost (token_url e)) (after_cache_check w) in
  match reply_at e (length (trace w)) with
  | NetworkFailure => (Return JNull, w1)
  | Response st b =>
      if (400 <=? st) && (st <? 600) then (Return JNull, w1)
      else
        match b with
        | NotJson => (Return JNull, w1)
        | Json v =>
            match (tok ← getitem v "access_token";
                   raw ← dict_get v "expires_in" (JInt 1800);
                   n ← int_of_json raw;
                   Return (tok, n)) with
            | Raise x => (if is_RequestException x then Return JNull else Raise x, w1)
            | Return (tok, n) =>
                match (delta ← timedelta_seconds (Z.max (n - 300) 60);
                       datetime_add (now_at e (ticks w1)) delta) with
                | Raise x =>
                    (if is_RequestException x then Return JNull else Raise x, tick w1)
                | Return expiry => (Return tok, with_token tok expiry (tick w1))
                end
            end
        end
  end.
Proof.
  intros H. unfold get_amadeus_token. munfold.
  rewrite cache_is_valid_eval, H. cbv zeta. fold (token_url e).
  rewrite after_cache_check_trace.
  destruct (reply_at e (length (trace w))) as [|st b]; [reflexivity|].
  cbn [received]. unfold raise_for_status. cbn [fst snd].
  destruct ((400 <=? st) && (st <? 600)); [reflexivity|].
  unfold resp_json. cbn [fst snd].
  destruct b as [|v]; [reflexivity|].
  destruct (getitem v "access_token") as [tok|x]; cbn; [|destruct x; reflexivity].
  destruct (dict_get v "expires_in" (JInt 1800)) as [raw|x]; cbn; [|destruct x; reflexivity].
  destruct (int_of_json raw) as [n|x]; cbn; [|destruct x; reflexivity].
  destruct (timedelta_seconds (Z.max (n - 300) 60)) as [delta|x]; cbn; [|destruct x; reflexivity].
  destruct (datetime_add _ delta) as [expiry|x]; cbn; [reflexivity|destruct x; reflexivity].
Qed.

Lemma get_amadeus_token_refresh_trace e w :
  credential_fresh e w = false ->
  trace (get_amadeus_token e w).2 = (trace w ++ [EvPost (token_url e)])%list.
Proof.
  intros H. rewrite get_amadeus_token_refresh by assumption. cbv zeta.
  repeat case_match; cbn [snd tick log with_token trace];
    now rewrite after_cache_check_trace.
Qed.

(** C5. While a cached credential exists and the clock is strictly before its
    expiry, [get_amadeus_token] returns the cached token and makes no network
    call (the trace is unchanged); in every other state the call makes exactly
    one network call, the POST to the token endpoint. *)
Theorem cached_token_served_without_network e w :
  (credential_fresh e w = true ->
     get_amadeus_token e w = (Return (access_token w), tick w)
     /\ trace (tick w) = trace w)
  /\ (credential_fresh e w = false ->
     trace (get_amadeus_token e w).2 = (trace w ++ [EvPost (token_url e)])%list).
Proof.
  split; intros H.
  - split; [now apply get_amadeus_token_cached|reflexivity].
  - now apply get_amadeus_token_refresh_trace.
Qed.

Lemma cached_token_served_without_network_witness :
  (get_amadeus_token (sample_env [] [1999]) cached_world
     = (Return (JStr "cached-token"), tick cached_world)
   /\ trace (tick cached_world) = [])
  /\ trace (get_amadeus_token (sample_env [] [2000]) cached_world).2
     = [EvPost "https://test.api.amadeus.com/v1/security/oauth2/token"].
Proof.
  split.
  - apply (proj1 (cached_token_served_without_network (sample_env [] [1999]) cached_world)).
    reflexivity.
  - apply (proj2 (cached_token_served_without_network (sample_env [] [2000]) cached_world)).
    reflexivity.
Defined.

(** C2. A refresh that succeeds (a reply outside 4xx/5xx whose JSON object has
    [access_token], and [expires_in] convertible by [int], taken as 1800 when
    absent) stores the new token with the expiry
    now + max(expires_in - 300, 60) seconds, now being the clock reading made
    after the reply, and returns the new token. The two side conditions say
    that the date stays within the range of [datetime]. *)
Theorem refresh_stores_token_and_expiry e w st d tok n :
  credential_fresh e w = false ->
  reply_at e (length (trace w)) = Response st (Json (JDict d)) ->
  ~ 400 <= st < 600 ->
  d !! "access_token" = Some tok ->
  int_of_json (default (JInt 1800) (d !! "expires_in")) = Return n ->
  let w1 := log (EvPost (token_url e)) (after_cache_check w) in
  let t := now_at e (ticks w1) in
  let expiry := t + seconds (Z.max (n - 300) 60) in
  Z.max (n - 300) 60 / 86400 <= 999999999 ->
  0 <= expiry <= datetime_max ->
  get_amadeus_token e w = (Return tok, with_token tok expiry (tick w1))
  /\ (d !! "expires_in" = None -> n = 1800).
Proof.
  intros Hf Hr Hst Htok Hn w1 t expiry Hdelta Hrange. split.
  - assert (Hstatus : (400 <=? st) && (st <? 600) = false).
    { destruct (Z.leb_spec 400 st), (Z.ltb_spec st 600); cbn; try reflexivity; lia. }
    assert (Htd : timedelta_seconds (Z.max (n - 300) 60)
                  = Return (seconds (Z.max (n - 300) 60))).
    { unfold timedelta_seconds.
      assert (0 <= Z.max (n - 300) 60 / 86400) by (apply Z.div_pos; lia).
      destruct (Z.ltb_spec 999999999 (Z.abs (Z.max (n - 300) 60 / 86400)));
        [lia|reflexivity]. }
    assert (Hadd : datetime_add t (seconds (Z.max (n - 300) 60)) = Return expiry).
    { unfold datetime_add. fold expiry.
      destruct (Z.ltb_spec expiry 0); [lia|].
      destruct (Z.ltb_spec datetime_max expiry); [lia|reflexivity]. }
    rewrite get_amadeus_token_refresh by assumption. cbv zeta. rewrite Hr, Hstatus.
    cbn [getitem dict_get]. rewrite Htok.
    unfold mbind at 1 2 3, outcome_bind. cbn [obind]. rewrite Hn. cbn [obind].
    rewrite Htd. unfold mbind, outcome_bind. cbn [obind].
    fold w1. fold t. rewrite Hadd. reflexivity.
  - intros Hnone. rewrite Hnone in Hn. cbn in Hn. congruence.
Qed.

Lemma refresh_stores_token_and_expiry_witness :
  get_amadeus_token (sample_env [token_reply [("access_token", JStr "tok")]] [5000000])
    fresh_world
  = (Return (JStr "tok"),
     {| access_token := JStr "tok"; token_expires_at := Some (5000000 + seconds 1500);
        ticks := 1;
        trace := [EvPost "https://test.api.amadeus.com/v1/security/oauth2/token"] |})
  /\ get_amadeus_token
       (sample_env [token_reply [("access_token", JStr "tok"); ("expires_in", JInt 120)]]
          [5000000])
       fresh_world
  = (Return (JStr "tok"),
     {| access_token := JStr "tok"; token_expires_at := Some (5000000 + seconds 60);
        ticks := 1;
        trace := [EvPost "https://test.api.amadeus.com/v1/security/oauth2/token"] |}).
Proof.
  split.
  - refine (proj1 (refresh_stores_token_and_expiry
             (sample_env [token_reply [("access_token", JStr "tok")]] [5000000])
             fresh_world 200 (list_to_map [("access_token", JStr "tok")]) (JStr "tok") 1800
             _ _ _ _ _ _ _)); try reflexivity; try (vm_compute; intuition congruence).
  - refine (proj1 (refresh_stores_token_and_expiry
             (sample_env [token_reply [("access_token", JStr "tok"); ("expires_in", JInt 120)]]
                [5000000])
             fresh_world 200
             (list_to_map [("access_token", JStr "tok"); ("expires_in", JInt 120)])
             (JStr "tok") 120 _ _ _ _ _ _ _)); try reflexivity;
      try (vm_compute; intuition congruence).
Defined.


Lemma refresh_failures_handled e w :
  credential_fresh e w = false ->
  (reply_at e (length (trace w)) = NetworkFailure
   \/ (exists st b, reply_at e (length (trace w)) = Response st b /\ 400 <= st < 600)
   \/ (exists st, reply_at e (length (trace w)) = Response st NotJson)) ->
  get_amadeus_token e w
  = (Return JNull, log (EvPost (token_url e)) (after_cache_check w)).
Proof.
  intros Hf H. rewrite get_amadeus_token_refresh by assumption. cbv zeta.
  destruct H as [-> | [(st & b & -> & Hst) | (st & ->)]]; [reflexivity| |].
  - destruct (Z.leb_spec 400 st), (Z.ltb_spec st 600); try lia. reflexivity.
  - destruct ((400 <=? st) && (st <? 600)); reflexivity.
Qed.

(** C4 (defect of the code). A failed refresh should come back as [None]. A
    2xx reply whose JSON has no [access_token], or whose [expires_in] is not a
    number, raises [KeyError] or [ValueError] inside the [try]; the handler
    only takes [RequestException], so the exception leaves
    [get_amadeus_token]: the health view ends with it, the flights view answers
    500. *)
Theorem token_reply_without_access_token_raises :
  get_amadeus_token (sample_env [token_reply [("error", JStr "invalid_client")]] [])
    fresh_world
  = (Raise (KeyError "access_token"),
     log (EvPost "https://test.api.amadeus.com/v1/security/oauth2/token") fresh_world)
  /\ (get_amadeus_token
        (sample_env [token_reply [("access_token", JStr "tok"); ("expires_in", JStr "soon")]] [])
        fresh_world).1
     = Raise invalid_literal
  /\ (health_check (sample_env [token_reply [("error", JStr "invalid_client")]] [])
        fresh_world).1
     = Raise (KeyError "access_token")
  /\ (search_flights flight_args
        (sample_env [token_reply [("error", JStr "invalid_client")]] []) fresh_world).1
     = Return (internal_error (KeyError "access_token")).
Proof. repeat split; reflexivity. Qed.

Lemma make_amadeus_request_eval ep params e w :
  make_amadeus_request ep params e w =
  match get_amadeus_token e w with
  | (Raise x, w1) => (Raise x, w1)
  | (Return token, w1) =>
      if negb (truthy token) then (Return JNull, w1)
      else
        let w2 := log (EvGet (AMADEUS_BASE_URL e +:+ ep) token params) w1 in
        match reply_at e (length (trace w1)) with
        | NetworkFailure => (Return JNull, w2)
        | Response st b =>
            if (400 <=? st) && (st <? 600) then (Return JNull, w2)
            else match b with
                 | NotJson => (Return JNull, w2)
                 | Json v => (Return v, w2)
                 end
        end
  end.
Proof.
  unfold make_amadeus_request. munfold.
  destruct (get_amadeus_token e w) as [[token|x] w1]; [|reflexivity].
  destruct (negb (truthy token)); [reflexivity|]. cbv zeta.
  destruct (reply_at e (length (trace w1))) as [|st b]; [reflexivity|].
  cbn [received]. unfold raise_for_status, resp_json. cbn [fst snd].
  destruct ((400 <=? st) && (st <? 600)); [reflexivity|].
  destruct b; reflexivity.
Qed.

Lemma get_amadeus_token_trace e w :
  trace (get_amadeus_token e w).2 = trace w
  \/ trace (get_amadeus_token e w).2 = (trace w ++ [EvPost (token_url e)])%list.
Proof.
  destruct (credential_fresh e w) eqn:Hf.
  - left. now rewrite get_amadeus_token_cached.
  - right. now apply get_amadeus_token_refresh_trace.
Qed.

(** The network calls of [make_amadeus_request]: at most the refresh of the
    token, then at most one GET, of the endpoint and with the parameters given. *)
Lemma make_amadeus_request_trace ep params e w :
  exists l, trace (make_amadeus_request ep params e w).2 = (trace w ++ l)%list
    /\ forall url bearer p, In (EvGet url bearer p) l ->
         url = AMADEUS_BASE_URL e +:+ ep /\ p = params.
Proof.
  rewrite make_amadeus_request_eval.
  pose proof (get_amadeus_token_trace e w) as Ht.
  destruct (get_amadeus_token e w) as [[token|x] w1]; cbn [snd] in Ht.
  - assert (Hpre : exists l0, trace w1 = (trace w ++ l0)%list
                     /\ forall url bearer p, ~ In (EvGet url bearer p) l0).
    { destruct Ht as [-> | ->].
      - exists []. rewrite app_nil_r. split; [reflexivity|]. intros ? ? ? [].
      - eexists. split; [reflexivity|]. intros ? ? ? [H|[]]. discriminate H. }
    destruct Hpre as (l0 & Hl0 & Hno).
    destruct (negb (truthy token)).
    + exists l0. split; [assumption|]. intros url b p H. now apply Hno in H.
    + exists (l0 ++ [EvGet (AMADEUS_BASE_URL e +:+ ep) token params])%list.
      split.
      * cbv zeta. repeat case_match; cbn [snd log trace]; rewrite Hl0; now rewrite app_assoc.
      * intros url b p H. apply in_app_or in H. destruct H as [H|[H|[]]].
        -- now apply Hno in H.
        -- inversion H. auto.
  - cbn [snd]. destruct Ht as [Ht | Ht]; rewrite Ht.
    + exists []. rewrite app_nil_r. split; [reflexivity|]. intros ? ? ? [].
    + eexists. split; [reflexivity|]. intros ? ? ? [H|[]]. discriminate H.
Qed.

Lemma flight_params_fixed o d dd a tc rd al :
  flight_params o d dd a tc rd al !! "currencyCode" = Some (PStr "USD")
  /\ flight_params o d dd a tc rd al !! "max" = Some (PInt 50)
  /\ flight_params o d dd a tc rd al !! "originLocationCode" = Some (PStr (upper o))
  /\ flight_params o d dd a tc rd al !! "destinationLocationCode" = Some (PStr (upper d)).
Proof.
  unfold flight_params. destruct (truthy_str rd), (truthy_str al);
    repeat split; cbv zeta; rewrite ?lookup_insert_ne by discriminate; reflexivity.
Qed.

Lemma search_flights_missing args e w :
  flight_required args = false ->
  search_flights args e w
  = (Return (missing_parameters ["origin"; "destination"; "departureDate"]), w).
Proof.
  unfold flight_required, search_flights. munfold. cbv zeta. intros ->. reflexivity.
Qed.

Lemma search_flights_world args e w :
  flight_required args = true ->
  (search_flights args e w).2
  = (make_amadeus_request "/v2/shopping/flight-offers"
       (flight_params (param_str (args !! "origin")) (param_str (args !! "destination"))
          (param_str (args !! "departureDate")) (default "1" (args !! "adults"))
          (default "ECONOMY" (args !! "travelClass")) (args !! "returnDate")
          (args !! "airline")) e w).2.
Proof.
  unfold flight_required, search_flights. munfold. cbv zeta. intros ->. cbn [negb].
  destruct (make_amadeus_request _ _ e w) as [[result|x] w1]; cbn [snd is_Exception].
  - destruct (search_result result "No flights found"); reflexivity.
  - reflexivity.
Qed.

Lemma credential_fresh_truthy e w :
  credential_fresh e w = true -> truthy (access_token w) = true.
Proof. unfold credential_fresh. now intros [H _]%andb_true_iff. Qed.

Lemma make_amadeus_request_cached_trace ep params e w :
  credential_fresh e w = true ->
  trace (make_amadeus_request ep params e w).2
  = (trace w ++ [EvGet (AMADEUS_BASE_URL e +:+ ep) (access_token w) params])%list.
Proof.
  intros Hf. rewrite make_amadeus_request_eval, get_amadeus_token_cached by assumption.
  rewrite (credential_fresh_truthy e w Hf). cbn [negb]. cbv zeta.
  repeat case_match; reflexivity.
Qed.

(** C10. Every GET issued by the flights view goes to the flight-offers
    endpoint with [currencyCode] "USD" and [max] 50 among its parameters; and
    such a GET is issued whenever the required parameters are present and the
    token is served. *)
Theorem flight_requests_carry_currency_and_cap args e w :
  (exists l, trace (search_flights args e w).2 = (trace w ++ l)%list
     /\ forall url bearer params, In (EvGet url bearer params) l ->
          url = AMADEUS_BASE_URL e +:+ "/v2/shopping/flight-offers"
          /\ params !! "currencyCode" = Some (PStr "USD")
          /\ params !! "max" = Some (PInt 50))
  /\ (flight_required args = true -> credential_fresh e w = true ->
      exists params,
        trace (search_flights args e w).2
        = (trace w ++ [EvGet (AMADEUS_BASE_URL e +:+ "/v2/shopping/flight-offers")
                         (access_token w) params])%list).
Proof.
  split.
  - destruct (flight_required args) eqn:Hreq.
    + rewrite search_flights_world by assumption.
      destruct (make_amadeus_request_trace "/v2/shopping/flight-offers"
                  (flight_params (param_str (args !! "origin"))
                     (param_str (args !! "destination"))
                     (param_str (args !! "departureDate")) (default "1" (args !! "adults"))
                     (default "ECONOMY" (args !! "travelClass")) (args !! "returnDate")
                     (args !! "airline")) e w) as (l & Hl & Hget).
      exists l. split; [assumption|]. intros url b p Hin.
      destruct (Hget _ _ _ Hin) as [-> ->].
      split; [reflexivity|]. split; apply flight_params_fixed.
    + rewrite search_flights_missing by assumption. exists [].
      rewrite app_nil_r. split; [reflexivity|]. intros ? ? ? [].
  - intros Hreq Hf. eexists. rewrite search_flights_world by assumption.
    now apply make_amadeus_request_cached_trace.
Qed.

Lemma flight_requests_carry_currency_and_cap_witness :
  exists params,
    trace (search_flights flight_args (sample_env [] [1999]) cached_world).2
    = [EvGet "https://test.api.amadeus.com/v2/shopping/flight-offers"
         (JStr "cached-token") params]
    /\ params !! "currencyCode" = Some (PStr "USD")
    /\ params !! "max" = Some (PInt 50).
Proof.
  destruct (proj2 (flight_requests_carry_currency_and_cap flight_args
                     (sample_env [] [1999]) cached_world) eq_refl eq_refl)
    as [params Hp].
  exists params. split; [exact Hp|].
  destruct (proj1 (flight_requests_carry_currency_and_cap flight_args
                     (sample_env [] [1999]) cached_world)) as (l & Hl & Hget).
  rewrite Hp in Hl. apply app_inv_head in Hl. subst l.
  destruct (Hget _ _ _ (or_introl eq_refl)) as (_ & Hcur & Hmax). now split.
Defined.

(** C3 (amended). In the flights view origin and destination are only required:
    when one of origin, destination, departureDate is absent or empty the view
    answers 400 "Missing required parameters" and makes no network call;
    otherwise every upstream request carries them in upper case, whatever
    their length and characters, and with a served token the request is
    issued. *)
Theorem flight_codes_required_and_uppercased args e w :
  (flight_required args = false ->
     search_flights args e w
     = (Return (missing_parameters ["origin"; "destination"; "departureDate"]), w))
  /\ (flight_required args = true ->
      exists l, trace (search_flights args e w).2 = (trace w ++ l)%list
        /\ forall url bearer params, In (EvGet url bearer params) l ->
             params !! "originLocationCode"
               = Some (PStr (upper (param_str (args !! "origin"))))
             /\ params !! "destinationLocationCode"
               = Some (PStr (upper (param_str (args !! "destination")))))
  /\ (flight_required args = true -> credential_fresh e w = true ->
      exists params,
        trace (search_flights args e w).2
        = (trace w ++ [EvGet (AMADEUS_BASE_URL e +:+ "/v2/shopping/flight-offers")
                         (access_token w) params])%list).
Proof.
  split; [apply search_flights_missing|]. split.
  - intros Hreq. rewrite search_flights_world by assumption.
    destruct (make_amadeus_request_trace "/v2/shopping/flight-offers"
                (flight_params (param_str (args !! "origin"))
                   (param_str (args !! "destination"))
                   (param_str (args !! "departureDate")) (default "1" (args !! "adults"))
                   (default "ECONOMY" (args !! "travelClass")) (args !! "returnDate")
                   (args !! "airline")) e w) as (l & Hl & Hget).
    exists l. split; [assumption|]. intros url b p Hin.
    destruct (Hget _ _ _ Hin) as [-> ->]. split; apply flight_params_fixed.
  - intros Hreq Hf. eexists. rewrite search_flights_world by assumption.
    now apply make_amadeus_request_cached_trace.
Qed.

Lemma flight_codes_required_and_uppercased_witness :
  search_flights ∅ (sample_env [] []) fresh_world
  = (Return (missing_parameters ["origin"; "destination"; "departureDate"]), fresh_world)
  /\ exists params,
       trace (search_flights odd_flight_args (sample_env [] [1999]) cached_world).2
       = [EvGet "https://test.api.amadeus.com/v2/shopping/flight-offers"
            (JStr "cached-token") params]
       /\ params !! "originLocationCode" = Some (PStr "NEWYORK")
       /\ params !! "destinationLocationCode" = Some (PStr "Q7").
Proof.
  pose proof (flight_codes_required_and_uppercased odd_flight_args
                (sample_env [] [1999]) cached_world) as (_ & Hup & Hget).
  split.
  - apply (proj1 (flight_codes_required_and_uppercased ∅ (sample_env [] []) fresh_world)).
    reflexivity.
  - destruct (Hget eq_refl eq_refl) as [params Hp]. exists params.
    split; [exact Hp|].
    destruct (Hup eq_refl) as (l & Hl & Hcodes).
    rewrite Hp in Hl. apply app_inv_head in Hl. subst l.
    exact (Hcodes _ _ _ (or_introl eq_refl)).
Defined.

(** C3, as stated, fails: "newyork" and "q7" do not pass the city code rule,
    and the flights view sends them upstream, upper-cased. *)
Lemma flights_call_upstream_with_unchecked_codes :
  validate_city_code (odd_flight_args !! "origin")
    = Raise (ValueError "City code must be exactly 3 letters")
  /\ validate_city_code (odd_flight_args !! "destination")
    = Raise (ValueError "City code must be exactly 3 letters")
  /\ trace (search_flights odd_flight_args (sample_env [] [1999]) cached_world).2
     = [EvGet "https://test.api.amadeus.com/v2/shopping/flight-offers"
          (JStr "cached-token")
          (list_to_map
             [("originLocationCode", PStr "NEWYORK");
              ("destinationLocationCode", PStr "Q7");
              ("departureDate", PStr "soon");
              ("adults", PStr "1");
              ("travelClass", PStr "ECONOMY");
              ("currencyCode", PStr "USD");
              ("max", PInt 50)])].
Proof. repeat split; reflexivity. Qed.

Lemma validate_city_code_raises v x :
  validate_city_code v = Raise x -> is_ValueError x = true.
Proof.
  unfold validate_city_code. destruct v as [s|]; [|now intros [= <-]].
  destruct (_ || _); now intros [= <-].
Qed.

Lemma check_date_fields_raises y m d x :
  check_date_fields y m d = Raise x -> is_ValueError x = true.
Proof.
  unfold check_date_fields. repeat case_match; intros [= <-]; reflexivity.
Qed.

Lemma strptime_Ymd_raises s x : strptime_Ymd s = Raise x -> is_ValueError x = true.
Proof.
  unfold strptime_Ymd. destruct (strptime_groups (chars s)) as [[[[gY gm] gd] stop]|];
    [|now intros [= <-]].
  destruct (negb _); [now intros [= <-]|].
  unfold mbind, outcome_bind.
  destruct (int_of_chars gY) eqn:EY; cbn [obind];
    [|intros [= <-]; now apply int_of_chars_raises in EY].
  destruct (int_of_chars gm) eqn:Em; cbn [obind];
    [|intros [= <-]; now apply int_of_chars_raises in Em].
  destruct (int_of_chars gd) eqn:Ed; cbn [obind];
    [|intros [= <-]; now apply int_of_chars_raises in Ed].
  apply check_date_fields_raises.
Qed.

Lemma validate_date_raises v field x :
  validate_date v field = Raise x -> is_ValueError x = true.
Proof.
  unfold validate_date. destruct v as [s|]; [|now intros [= <-]].
  destruct (_ || _); [now intros [= <-]|].
  unfold try_except, mbind, outcome_bind.
  destruct (strptime_Ymd s) as [?|y] eqn:E; cbn [obind]; [discriminate|].
  rewrite (strptime_Ymd_raises _ _ E). now intros [= <-].
Qed.

Lemma validate_positive_int_raises v field lo hi x :
  validate_positive_int v field lo hi = Raise x -> is_ValueError x = true.
Proof. intros H. apply validate_positive_int_messages in H as [-> | ->]; reflexivity. Qed.

Lemma hotel_validation_first_failure c ci co a r :
  match first_failure
          [failure (validate_city_code c);
           failure (validate_date ci "checkInDate");
           failure (validate_date co "checkOutDate");
           failure (validate_positive_int a "adults" 1 30);
           failure (validate_positive_int r "roomQuantity" 1 10)] with
  | Some x => hotel_validation c ci co a r = Return (inr (invalid_parameter x))
  | None =>
      exists vc vci vco va vr,
        validate_city_code c = Return vc
        /\ validate_date ci "checkInDate" = Return vci
        /\ validate_date co "checkOutDate" = Return vco
        /\ validate_positive_int a "adults" 1 30 = Return va
        /\ validate_positive_int r "roomQuantity" 1 10 = Return vr
        /\ hotel_validation c ci co a r = Return (inl (vc, vci, vco, va, vr))
  end.
Proof.
  unfold hotel_validation, try_except, mbind, outcome_bind.
  destruct (validate_city_code c) as [vc|x] eqn:E1; cbn [failure first_failure obind];
    [|now rewrite (validate_city_code_raises _ _ E1)].
  destruct (validate_date ci "checkInDate") as [vci|x] eqn:E2;
    cbn [failure first_failure obind]; [|now rewrite (validate_date_raises _ _ _ E2)].
  destruct (validate_date co "checkOutDate") as [vco|x] eqn:E3;
    cbn [failure first_failure obind]; [|now rewrite (validate_date_raises _ _ _ E3)].
  destruct (validate_positive_int a "adults" 1 30) as [va|x] eqn:E4;
    cbn [failure first_failure obind];
    [|now rewrite (validate_positive_int_raises _ _ _ _ _ E4)].
  destruct (validate_positive_int r "roomQuantity" 1 10) as [vr|x] eqn:E5;
    cbn [failure first_failure obind];
    [|now rewrite (validate_positive_int_raises _ _ _ _ _ E5)].
  exists vc, vci, vco, va, vr. auto 10.
Qed.

(** C8. In the hotels view, when one of cityCode, checkInDate, checkOutDate is
    absent or empty the answer is the 400 "Missing required parameters" that
    lists the three names, whatever the other parameters are and without any
    network call; when all three are present the answer is the 400 of the
    first validator that fails, in the order city code, check-in, check-out,
    adults, rooms; with no failure the view goes on to the upstream request. *)
Theorem hotels_missing_then_first_invalid args e w :
  (hotel_required args = false ->
     search_hotels args e w
     = (Return (missing_parameters ["cityCode"; "checkInDate"; "checkOutDate"]), w))
  /\ (hotel_required args = true ->
      match first_failure (hotel_checks args) with
      | Some x => search_hotels args e w = (Return (invalid_parameter x), w)
      | None =>
          exists vc vci vco va vr,
            search_hotels args e w
            = try_exceptM
                (result ← make_amadeus_request "/v3/shopping/hotel-offers"
                            (hotel_params vc vci vco va vr);
                 lift (search_result result "No hotels found"))
                is_Exception (fun x => mret (internal_error x)) e w
      end).
Proof.
  unfold hotel_required, hotel_checks. split; intros Hreq.
  - unfold search_hotels. munfold. cbv zeta. rewrite Hreq. reflexivity.
  - pose proof (hotel_validation_first_failure (args !! "cityCode")
                  (args !! "checkInDate") (args !! "checkOutDate")
                  (Some (default "1" (args !! "adults")))
                  (Some (default "1" (args !! "roomQuantity")))) as Hv.
    destruct (first_failure _) as [x|].
    + unfold search_hotels. munfold. cbv zeta. rewrite Hreq, Hv. reflexivity.
    + destruct Hv as (vc & vci & vco & va & vr & _ & _ & _ & _ & _ & Hv).
      exists vc, vci, vco, va, vr.
      unfold search_hotels. munfold. cbv zeta. rewrite Hreq, Hv. reflexivity.
Qed.

Lemma hotels_missing_then_first_invalid_witness :
  search_hotels
    (list_to_map [("checkInDate", "2025-02-30"); ("checkOutDate", "2025-08-22");
                  ("adults", "abc")])
    (sample_env [] []) fresh_world
  = (Return (missing_parameters ["cityCode"; "checkInDate"; "checkOutDate"]), fresh_world)
  /\ search_hotels
       (list_to_map [("cityCode", "lax"); ("checkInDate", "2025-02-30");
                     ("checkOutDate", "2025-08-22"); ("adults", "abc")])
       (sample_env [] []) fresh_world
     = (Return (invalid_parameter (ValueError "checkInDate is not a valid date")),
        fresh_world).
Proof.
  split.
  - apply (proj1 (hotels_missing_then_first_invalid
             (list_to_map [("checkInDate", "2025-02-30"); ("checkOutDate", "2025-08-22");
                           ("adults", "abc")])
             (sample_env [] []) fresh_world)).
    reflexivity.
  - exact (proj2 (hotels_missing_then_first_invalid
             (list_to_map [("cityCode", "lax"); ("checkInDate", "2025-02-30");
                           ("checkOutDate", "2025-08-22"); ("adults", "abc")])
             (sample_env [] []) fresh_world) eq_refl).
Defined.





(** ** Further properties of the validators, the token cache and the views *)

Lemma ord_range c : 0 <= ord c < 256.
Proof.
  unfold ord. pose proof (N_ascii_bounded c) as H. lia.
Qed.

Lemma ord_upper_char c :
  is_lower c = true -> ord (upper_char c) = ord c - 32.
Proof.
  intros H. unfold upper_char. rewrite H. unfold is_lower in H.
  apply andb_true_iff in H as [H1 H2]. apply Z.leb_le in H1, H2.
  unfold ord at 1. rewrite N_ascii_embedding by lia. lia.
Qed.

Lemma upper_char_is_upper c : is_alpha c = true -> is_upper (upper_char c) = true.
Proof.
  unfold is_alpha. intros H.
  destruct (is_lower c) eqn:Hl.
  - pose proof (ord_upper_char c Hl) as Ho. unfold is_upper. rewrite Ho.
    unfold is_lower in Hl. apply andb_true_iff in Hl as [H1 H2].
    apply Z.leb_le in H1, H2. apply andb_true_iff. rewrite !Z.leb_le. lia.
  - unfold upper_char. rewrite Hl. now rewrite orb_false_r in H.
Qed.





Lemma range_test_false n lo hi : (n <? lo) || (n >? hi) = false <-> lo <= n <= hi.
Proof. rewrite orb_false_iff, Z.ltb_ge, Z.gtb_ltb, Z.ltb_ge. lia. Qed.

(** X2. [validate_positive_int] returns [n] exactly when the value is a
    non-empty string that [int] converts to [n] and [n] lies between the two
    bounds, both included. *)
Theorem validate_positive_int_accepts v field lo hi n :
  validate_positive_int v field lo hi = Return n
  <-> exists s, v = Some s /\ s <> "" /\ int_of_str s = Return n /\ lo <= n <= hi.
Proof.
  unfold validate_positive_int, truthy_str. split.
  - destruct v as [s|]; [|discriminate].
    destruct (String.eqb_spec s ""); cbn [negb]; [discriminate|].
    unfold try_except, mbind, outcome_bind. rewrite handler_condition. cbn [negb].
    destruct (int_of_str s) as [num|x] eqn:E; cbn [obind].
    + destruct ((num <? lo) || (num >? hi)) eqn:Hr; cbn; [discriminate|].
      intros [= ->]. exists s. apply range_test_false in Hr. auto.
    + destruct (is_ValueError_or_TypeError x); discriminate.
  - intros (s & -> & Hs & E & Hn).
    destruct (String.eqb_spec s ""); [contradiction|]. cbn [negb].
    rewrite E. cbn. apply range_test_false in Hn. now rewrite Hn.
Qed.

(** X3. [validate_radius] returns 20 for an absent or empty value, and
    otherwise returns [r] exactly when [int] converts the string to [r] and
    [r] is between 1 and 100. *)
Theorem validate_radius_accepts v r :
  validate_radius v = Return r
  <-> (truthy_str v = false /\ r = 20)
      \/ (exists s, v = Some s /\ s <> "" /\ int_of_str s = Return r /\ 1 <= r <= 100).
Proof.
  unfold validate_radius, truthy_str. split.
  - destruct v as [s|]; [|intros [= <-]; auto].
    destruct (String.eqb_spec s ""); cbn [negb]; [intros [= <-]; auto|].
    unfold try_except, mbind, outcome_bind. rewrite handler_condition. cbn [negb].
    destruct (int_of_str s) as [num|x] eqn:E; cbn [obind].
    + destruct ((num <? 1) || (num >? 100)) eqn:Hr; cbn; [discriminate|].
      intros [= ->]. right. exists s. apply range_test_false in Hr. auto.
    + destruct (is_ValueError_or_TypeError x); discriminate.
  - intros [[Hv ->] | (s & -> & Hs & E & Hn)].
    + destruct v as [s|]; [|reflexivity].
      destruct (String.eqb_spec s ""); [reflexivity|discriminate].
    + destruct (String.eqb_spec s ""); [contradiction|]. cbn [negb].
      rewrite E. cbn. apply range_test_false in Hn. now rewrite Hn.
Qed.

Lemma SFeqb_refl_nan s : SFeqb s s = false -> s = S754_nan.
Proof.
  unfold SFeqb, SFcompare. destruct s as [b|b| |b m e]; try reflexivity; try discriminate.
  - destruct b; discriminate.
  - change (IntDef.Z.compare e e) with (Z.compare e e). rewrite Z.compare_refl.
    change (PosDef.Pos.compare_cont Eq m m) with (Pos.compare m m).
    rewrite Pos.compare_refl. destruct b; discriminate.
Qed.

Lemma nan_not_less x y :
  PrimFloat.is_nan x = true -> (x <? y)%float = false /\ (y <? x)%float = false.
Proof.
  unfold PrimFloat.is_nan. intros H. apply negb_true_iff in H.
  rewrite FloatAxioms.eqb_spec in H. apply SFeqb_refl_nan in H.
  rewrite !FloatAxioms.ltb_spec, H. unfold SFltb, SFcompare. split; [reflexivity|].
  destruct (Prim2SF y); reflexivity.
Qed.

(** X4. A value that [float] converts to NaN passes both coordinate
    validators: neither comparison of the range test holds for NaN. *)
Theorem nan_passes_coordinate_checks fos s (x : float) :
  s <> "" -> fos s = Return x -> PrimFloat.is_nan x = true ->
  validate_latitude fos (Some s) = Return x
  /\ validate_longitude fos (Some s) = Return x.
Proof.
  intros Hs E Hx. unfold validate_latitude, validate_longitude, truthy_str.
  destruct (String.eqb_spec s ""); [contradiction|]. cbn [negb].
  rewrite E. cbn.
  destruct (nan_not_less x (-90)%float Hx) as [-> _].
  destruct (nan_not_less x 90%float Hx) as [_ ->].
  destruct (nan_not_less x (-180)%float Hx) as [-> _].
  destruct (nan_not_less x 180%float Hx) as [_ ->].
  split; reflexivity.
Qed.

Lemma nan_passes_coordinate_checks_witness :
  validate_latitude (fun _ => Return nan) (Some "nan") = Return nan
  /\ validate_longitude (fun _ => Return nan) (Some "nan") = Return nan.
Proof.
  apply (nan_passes_coordinate_checks (fun _ => Return nan) "nan" nan);
    [discriminate|reflexivity|reflexivity].
Defined.

(** What [validate_date] lets through. *)
Lemma validate_date_returns_str s field r :
  validate_date (Some s) field = Return r ->
  r = s /\ real_calendar_date s = true.
Proof.
  unfold validate_date, re_match, real_calendar_date, YYYY_MM_DD.
  rewrite date_regex_shape.
  do 10 (destruct s as [|? s]; [cbn; discriminate|]).
  assert (Htl : s = "" \/ (exists x, s = String x "") \/ exists x y r, s = String x (String y r)).
  { destruct s as [|x [|y r']]; eauto 6. }
  destruct Htl as [-> | [[x ->] | (x & y & r' & ->)]];
  cbn [chars list_ascii_of_string truthy_str String.eqb negb orb date_shape];
  repeat match goal with
  | |- context [is_digit ?c && _] =>
      destruct (is_digit c) eqn:?; cbn [andb]; [|cbn; discriminate]
  | |- context [Ascii.eqb ?c "-" && _] =>
      destruct (Ascii.eqb_spec c "-"); cbn [andb]; [subst c|cbn; discriminate]
  end.
  - pose proof (strptime_Ymd_shape a a0 a1 a2 a4 a5 a7 a8 []
                  ltac:(repeat constructor; assumption)) as Hs.
    cbn [string_of_list_ascii app] in Hs. cbv zeta in Hs.
    rewrite andb_true_r in Hs.
    destruct (calendar_date _ _ _).
    + rewrite Hs. cbn. intros [= <-]. auto.
    + destruct Hs as [msg ->]. cbn. discriminate.
  - pose proof (strptime_Ymd_shape a a0 a1 a2 a4 a5 a7 a8 [x]
                  ltac:(repeat constructor; assumption)) as Hs.
    cbn [string_of_list_ascii app] in Hs. cbv zeta in Hs.
    rewrite andb_false_r in Hs. destruct Hs as [msg ->].
    destruct (Ascii.eqb x newline); cbn; discriminate.
  - cbn. discriminate.
Qed.

Lemma validate_date_returns v field r :
  validate_date v field = Return r ->
  v = Some r /\ real_calendar_date r = true.
Proof.
  destruct v as [s|]; [|discriminate].
  intros H. apply validate_date_returns_str in H as [-> H]. auto.
Qed.

Lemma search_flights_eval args e w :
  search_flights args e w =
  if negb (flight_required args) then
    (Return (missing_parameters ["origin"; "destination"; "departureDate"]), w)
  else
    answer "No flights found"
      (make_amadeus_request "/v2/shopping/flight-offers"
         (flight_params (param_str (args !! "origin")) (param_str (args !! "destination"))
            (param_str (args !! "departureDate")) (default "1" (args !! "adults"))
            (default "ECONOMY" (args !! "travelClass")) (args !! "returnDate")
            (args !! "airline")) e w).
Proof.
  unfold flight_required, search_flights, answer. munfold. cbv zeta.
  destruct (all_truthy _); cbn [negb]; [|reflexivity].
  destruct (make_amadeus_request _ _ e w) as [[result|x] w1]; cbn [is_Exception];
    [|reflexivity].
  destruct (search_result result "No flights found"); reflexivity.
Qed.

Lemma search_hotels_eval args e w :
  search_hotels args e w =
  if negb (hotel_required args) then
    (Return (missing_parameters ["cityCode"; "checkInDate"; "checkOutDate"]), w)
  else
    match hotel_validation (args !! "cityCode") (args !! "checkInDate")
            (args !! "checkOutDate") (Some (default "1" (args !! "adults")))
            (Some (default "1" (args !! "roomQuantity"))) with
    | Raise x => (Return (internal_error x), w)
    | Return (inr bad_request) => (Return bad_request, w)
    | Return (inl (c, ci, co, a, r)) =>
        answer "No hotels found"
          (make_amadeus_request "/v3/shopping/hotel-offers" (hotel_params c ci co a r) e w)
    end.
Proof.
  unfold hotel_required, search_hotels, answer. munfold. cbv zeta.
  destruct (all_truthy _); cbn [negb]; [|reflexivity].
  destruct (hotel_validation _ _ _ _ _) as [[[[[[c ci] co] a] r]|bad]|x];
    cbn [is_Exception]; try reflexivity.
  destruct (make_amadeus_request _ _ e w) as [[result|x] w1]; cbn [is_Exception];
    [|reflexivity].
  destruct (search_result result "No hotels found"); reflexivity.
Qed.

Lemma search_activities_eval args e w :
  search_activities args e w =
  if negb (activity_required args) then
    (Return (missing_parameters ["latitude"; "longitude"]), w)
  else
    match activity_validation (float_of_str e) (args !! "latitude") (args !! "longitude")
            (Some (default "20" (args !! "radius"))) with
    | Raise x => (Return (internal_error x), w)
    | Return (inr bad_request) => (Return bad_request, w)
    | Return (inl (la, lo, r)) =>
        answer "No activities found"
          (make_amadeus_request "/v1/shopping/activities" (activity_params la lo r) e w)
    end.
Proof.
  unfold activity_required, search_activities, answer. munfold. cbv zeta.
  destruct (all_truthy _); cbn [negb]; [|reflexivity].
  destruct (activity_validation _ _ _ _) as [[[[la lo] r]|bad]|x];
    cbn [is_Exception]; try reflexivity.
  destruct (make_amadeus_request _ _ e w) as [[result|x] w1]; cbn [is_Exception];
    [|reflexivity].
  destruct (search_result result "No activities found"); reflexivity.
Qed.

Lemma lookup_some_size (d : gmap string json) k x :
  d !! k = Some x -> Nat.eqb (size d) 0 = false.
Proof.
  intros H. apply Nat.eqb_neq. intros Hs. apply map_size_empty_inv in Hs.
  subst d. now rewrite lookup_empty in H.
Qed.

Lemma search_result_cases v nothing :
  match search_result v nothing with
  | Return r =>
      r = not_found nothing
      \/ exists d data,
           v = JDict d /\ d !! "data" = Some data
           /\ r = (jsonify [("success", JBool true); ("data", data);
                            ("meta", default (JDict ∅) (d !! "meta"));
                            ("source", JStr "Amadeus")], 200)
  | Raise x => x = TypeError
  end.
Proof.
  unfold search_result, mbind, outcome_bind.
  destruct (truthy v) eqn:Ht; cbn [obind]; [|now left].
  destruct v as [| b | n | f | s | l | d]; cbn [json_contains obind]; try reflexivity.
  - destruct (contains "data" s); cbn [obind getitem]; [reflexivity|now left].
  - destruct (existsb _ l); cbn [obind getitem]; [reflexivity|now left].
  - destruct (d !! "data") as [data|] eqn:Hd; cbn [bool_decide]; cbn.
    + rewrite Hd. cbn. right. eauto.
    + now left.
Qed.

Lemma search_result_object (d : gmap string json) nothing :
  search_result (JDict d) nothing
  = match d !! "data" with
    | Some data =>
        Return (jsonify [("success", JBool true); ("data", data);
                         ("meta", default (JDict ∅) (d !! "meta"));
                         ("source", JStr "Amadeus")], 200)
    | None => Return (not_found nothing)
    end.
Proof.
  unfold search_result, mbind, outcome_bind. cbn [truthy].
  destruct (d !! "data") as [data|] eqn:Hd.
  - rewrite (lookup_some_size d "data" data Hd). cbn [negb json_contains obind].
    rewrite Hd. cbn. rewrite Hd. reflexivity.
  - destruct (negb _); cbn [json_contains obind]; [|reflexivity].
    rewrite Hd. reflexivity.
Qed.

(** X8. Of the JSON values upstream can return, only an object with a [data]
    key gives the 200 answer (with [meta] defaulting to the empty object); an
    object without [data] gives the 404 answer; any other value gives the 404
    answer or raises [TypeError]. *)
Theorem only_an_object_with_data_answers_ok nothing :
  (forall d : gmap string json,
     search_result (JDict d) nothing
     = match d !! "data" with
       | Some data =>
           Return (jsonify [("success", JBool true); ("data", data);
                            ("meta", default (JDict ∅) (d !! "meta"));
                            ("source", JStr "Amadeus")], 200)
       | None => Return (not_found nothing)
       end)
  /\ (forall v, (forall d, v <> JDict d) ->
        search_result v nothing = Return (not_found nothing)
        \/ search_result v nothing = Raise TypeError).
Proof.
  split.
  - intros d. apply search_result_object.
  - intros v Hv. pose proof (search_result_cases v nothing) as H.
    destruct (search_result v nothing) as [r|x]; [|right; now subst].
    destruct H as [-> | (d & data & -> & _)]; [now left|].
    now destruct (Hv d).
Qed.

Lemma validate_city_code_returns v r :
  validate_city_code v = Return r ->
  (exists s, v = Some s /\ len s = 3 /\ isalpha s = true /\ r = upper s)
  /\ len r = 3 /\ forallb is_upper (chars r) = true.
Proof.
  unfold validate_city_code. destruct v as [s|]; [|discriminate].
  destruct (truthy_str (Some s)) eqn:Ht; cbn [negb orb]; [|discriminate].
  destruct (Z.eqb_spec (len s) 3) as [Hlen|]; cbn [negb orb]; [|discriminate].
  destruct (isalpha s) eqn:Ha; cbn [negb]; [|discriminate].
  intros [= <-]. split; [eauto|].
  unfold len in Hlen.
  destruct s as [|a [|b [|c [|? ?]]]]; cbn in Hlen; try lia.
  unfold isalpha in Ha. cbn in Ha.
  apply andb_true_iff in Ha as [Ha Ha']. apply andb_true_iff in Ha' as [Hb Hc'].
  apply andb_true_iff in Hc' as [Hc _].
  split; [reflexivity|]. cbn.
  now rewrite !upper_char_is_upper.
Qed.

Lemma validate_positive_int_returns s field lo hi n :
  validate_positive_int (Some s) field lo hi = Return n ->
  int_of_str s = Return n /\ lo <= n <= hi.
Proof.
  unfold validate_positive_int, truthy_str.
  destruct (String.eqb_spec s ""); cbn [negb]; [discriminate|].
  unfold try_except, mbind, outcome_bind. rewrite handler_condition. cbn [negb].
  destruct (int_of_str s) as [num|x] eqn:E; cbn [obind].
  - destruct ((num <? lo) || (num >? hi)) eqn:Hr; cbn; [discriminate|].
    intros [= ->]. apply range_test_false in Hr. auto.
  - destruct (is_ValueError_or_TypeError x); discriminate.
Qed.

(** What the validation block of the hotels view lets through. *)
Lemma hotel_validation_cases c ci co a r :
  (exists x, hotel_validation c ci co (Some a) (Some r) = Return (inr (invalid_parameter x)))
  \/ exists vc vci vco va vr,
       hotel_validation c ci co (Some a) (Some r) = Return (inl (vc, vci, vco, va, vr))
       /\ len vc = 3 /\ forallb is_upper (chars vc) = true
       /\ (exists s, c = Some s /\ vc = upper s)
       /\ ci = Some vci /\ real_calendar_date vci = true
       /\ co = Some vco /\ real_calendar_date vco = true
       /\ int_of_str a = Return va /\ 1 <= va <= 30
       /\ int_of_str r = Return vr /\ 1 <= vr <= 10.
Proof.
  pose proof (hotel_validation_first_failure c ci co (Some a) (Some r)) as H.
  destruct (first_failure _) as [x|]; [left; eauto|].
  destruct H as (vc & vci & vco & va & vr & H1 & H2 & H3 & H4 & H5 & H).
  right. exists vc, vci, vco, va, vr.
  apply validate_city_code_returns in H1 as ((s & Hs & _ & _ & Hu) & Hl & Hup).
  apply validate_date_returns in H2 as [? ?], H3 as [? ?].
  apply validate_positive_int_returns in H4 as [? ?], H5 as [? ?].
  repeat split; eauto; lia.
Qed.

Lemma answer_world nothing r0 : (answer nothing r0).2 = r0.2.
Proof. destruct r0 as [[result|x] w1]; reflexivity. Qed.

Lemma answer_status nothing r0 :
  exists resp, (answer nothing r0).1 = Return resp
    /\ (resp.2 = 200 \/ resp.2 = 404 \/ resp.2 = 500).
Proof.
  destruct r0 as [[result|x] w1]; cbn [answer fst]; [|eexists; split; [reflexivity|auto]].
  pose proof (search_result_cases result nothing) as H.
  destruct (search_result result nothing) as [r|x].
  - exists r. split; [reflexivity|].
    destruct H as [-> | (d & data & _ & _ & ->)]; auto.
  - eexists. split; [reflexivity|auto].
Qed.


Lemma validate_radius_returns s r :
  validate_radius (Some s) = Return r ->
  (s = "" /\ r = 20) \/ (int_of_str s = Return r /\ 1 <= r <= 100).
Proof.
  unfold validate_radius, truthy_str.
  destruct (String.eqb_spec s ""); cbn [negb]; [intros [= <-]; auto|].
  unfold try_except, mbind, outcome_bind. rewrite handler_condition. cbn [negb].
  destruct (int_of_str s) as [num|x] eqn:E; cbn [obind].
  - destruct ((num <? 1) || (num >? 100)) eqn:Hr; cbn; [discriminate|].
    intros [= ->]. apply range_test_false in Hr. auto.
  - destruct (is_ValueError_or_TypeError x); discriminate.
Qed.

Lemma validate_latitude_returns fos v x :
  validate_latitude fos v = Return x ->
  (exists s, v = Some s /\ s <> "" /\ fos s = Return x)
  /\ (x <? -90)%float = false /\ (90 <? x)%float = false.
Proof.
  unfold validate_latitude, truthy_str. destruct v as [s|]; [|discriminate].
  destruct (String.eqb_spec s ""); cbn [negb]; [discriminate|].
  unfold try_except, mbind, outcome_bind. rewrite handler_condition. cbn [negb].
  destruct (fos s) as [lat|y] eqn:E; cbn [obind].
  - destruct ((lat <? -90)%float || (90 <? lat)%float) eqn:Hr; cbn; [discriminate|].
    intros [= ->]. apply orb_false_iff in Hr as [? ?]. eauto 10.
  - destruct (is_ValueError_or_TypeError y); discriminate.
Qed.

Lemma validate_longitude_returns fos v x :
  validate_longitude fos v = Return x ->
  (exists s, v = Some s /\ s <> "" /\ fos s = Return x)
  /\ (x <? -180)%float = false /\ (180 <? x)%float = false.
Proof.
  unfold validate_longitude, truthy_str. destruct v as [s|]; [|discriminate].
  destruct (String.eqb_spec s ""); cbn [negb]; [discriminate|].
  unfold try_except, mbind, outcome_bind. rewrite handler_condition. cbn [negb].
  destruct (fos s) as [lng|y] eqn:E; cbn [obind].
  - destruct ((lng <? -180)%float || (180 <? lng)%float) eqn:Hr; cbn; [discriminate|].
    intros [= ->]. apply orb_false_iff in Hr as [? ?]. eauto 10.
  - destruct (is_ValueError_or_TypeError y); discriminate.
Qed.

(** What the validation block of the activities view ends with. *)
Lemma activity_validation_cases fos la lo ra :
  match activity_validation fos la lo (Some ra) with
  | Raise x => is_ValueError x = false
  | Return (inr bad_request) => exists x, bad_request = invalid_parameter x
  | Return (inl (vla, vlo, vr)) =>
      validate_latitude fos la = Return vla
      /\ validate_longitude fos lo = Return vlo
      /\ validate_radius (Some ra) = Return vr
  end.
Proof.
  unfold activity_validation, try_except, mbind, outcome_bind.
  destruct (validate_latitude fos la) as [vla|x]; cbn [obind].
  2:{ destruct (is_ValueError x) eqn:Hx; eauto. }
  destruct (validate_longitude fos lo) as [vlo|x]; cbn [obind].
  2:{ destruct (is_ValueError x) eqn:Hx; eauto. }
  destruct (validate_radius (Some ra)) as [vr|x]; cbn [obind].
  2:{ destruct (is_ValueError x) eqn:Hx; eauto. }
  auto.
Qed.

(** X7. The three search views never raise: they always return a response,
    whose status is 200, 400, 404 or 500. *)
Theorem search_views_always_answer args e w :
  let answered (r : outcome http_response * world) :=
    exists resp, r.1 = Return resp
      /\ (resp.2 = 200 \/ resp.2 = 400 \/ resp.2 = 404 \/ resp.2 = 500) in
  answered (search_flights args e w)
  /\ answered (search_hotels args e w)
  /\ answered (search_activities args e w).
Proof.
  cbv zeta.
  assert (Hans : forall nothing r0, exists resp, (answer nothing r0).1 = Return resp
            /\ (resp.2 = 200 \/ resp.2 = 400 \/ resp.2 = 404 \/ resp.2 = 500)).
  { intros nothing r0. destruct (answer_status nothing r0) as (resp & H & Hs).
    exists resp. split; [exact H|]. tauto. }
  assert (Hlit : forall (r : http_response) (w0 : world),
            r.2 = 400 \/ r.2 = 500 ->
            exists resp, (Return r, w0).1 = Return resp
              /\ (resp.2 = 200 \/ resp.2 = 400 \/ resp.2 = 404 \/ resp.2 = 500)).
  { intros r w0 H. exists r. split; [reflexivity|]. tauto. }
  split; [|split].
  - rewrite search_flights_eval. destruct (negb _); [apply Hlit; now left|apply Hans].
  - rewrite search_hotels_eval. destruct (negb _); [apply Hlit; now left|].
    destruct (hotel_validation_cases (args !! "cityCode") (args !! "checkInDate")
                (args !! "checkOutDate") (default "1" (args !! "adults"))
                (default "1" (args !! "roomQuantity")))
      as [[x ->] | (vc & vci & vco & va & vr & -> & _)];
      [apply Hlit; now left|apply Hans].
  - rewrite search_activities_eval. destruct (negb _); [apply Hlit; now left|].
    pose proof (activity_validation_cases (float_of_str e) (args !! "latitude")
                  (args !! "longitude") (default "20" (args !! "radius"))) as H.
    destruct (activity_validation _ _ _ _) as [[[[la lo] r]|bad]|x].
    + apply Hans.
    + destruct H as [x ->]. apply Hlit. now left.
    + apply Hlit. now right.
Qed.

(** X6. When a search view answers 400, the world is unchanged: no clock
    reading, no token refresh and no upstream request were made. *)
Theorem bad_request_leaves_world_untouched args e w :
  (forall r w', search_flights args e w = (Return r, w') -> r.2 = 400 -> w' = w)
  /\ (forall r w', search_hotels args e w = (Return r, w') -> r.2 = 400 -> w' = w)
  /\ (forall r w', search_activities args e w = (Return r, w') -> r.2 = 400 -> w' = w).
Proof.
  assert (Hans : forall nothing r0 r w',
            answer nothing r0 = (Return r, w') -> r.2 = 400 -> w' = w).
  { intros nothing r0 r w' H H400.
    destruct (answer_status nothing r0) as (resp & Hr & Hs).
    rewrite H in Hr. cbn in Hr. injection Hr as ->. lia. }
  split; [|split]; intros r w'.
  - rewrite search_flights_eval. destruct (negb _); [now intros [= _ <-]|apply Hans].
  - rewrite search_hotels_eval. destruct (negb _); [now intros [= _ <-]|].
    destruct (hotel_validation _ _ _ _ _) as [[[[[[c ci] co] a] r']|bad]|x];
      [apply Hans|now intros [= _ <-]|now intros [= _ <-]].
  - rewrite search_activities_eval. destruct (negb _); [now intros [= _ <-]|].
    destruct (activity_validation _ _ _ _) as [[[[la lo] r']|bad]|x];
      [apply Hans|now intros [= _ <-]|now intros [= _ <-]].
Qed.

Lemma bad_request_leaves_world_untouched_witness :
  search_hotels (list_to_map [("cityCode", "lax1"); ("checkInDate", "2025-08-20");
                              ("checkOutDate", "2025-08-22")])
    (sample_env [] []) fresh_world
  = (Return (invalid_parameter (ValueError "City code must be exactly 3 letters")),
     fresh_world).
Proof.
  pose proof (proj1 (proj2 (bad_request_leaves_world_untouched
                (list_to_map [("cityCode", "lax1"); ("checkInDate", "2025-08-20");
                              ("checkOutDate", "2025-08-22")])
                (sample_env [] []) fresh_world))
              (invalid_parameter (ValueError "City code must be exactly 3 letters"))
              (search_hotels (list_to_map [("cityCode", "lax1"); ("checkInDate", "2025-08-20");
                              ("checkOutDate", "2025-08-22")])
                 (sample_env [] []) fresh_world).2 eq_refl eq_refl) as H.
  rewrite <- H at 2. reflexivity.
Defined.

(** X14. Every GET issued by the activities view goes to the activities
    endpoint with the converted latitude and longitude, neither below nor
    above its range, and a radius in 1..100, which is 20 when the request has
    no radius or an empty one. *)
Theorem activity_requests_carry_validated_parameters args e w :
  exists l, trace (search_activities args e w).2 = (trace w ++ l)%list
    /\ forall url bearer params, In (EvGet url bearer params) l ->
         url = AMADEUS_BASE_URL e +:+ "/v1/shopping/activities"
         /\ exists (la lo : float) r,
              params = activity_params la lo r
              /\ (exists s, args !! "latitude" = Some s /\ float_of_str e s = Return la)
              /\ (la <? -90)%float = false /\ (90 <? la)%float = false
              /\ (exists s, args !! "longitude" = Some s /\ float_of_str e s = Return lo)
              /\ (lo <? -180)%float = false /\ (180 <? lo)%float = false
              /\ 1 <= r <= 100
              /\ (args !! "radius" = None \/ args !! "radius" = Some "" -> r = 20).
Proof.
  assert (Hnone : exists l, trace w = (trace w ++ l)%list
            /\ forall url bearer params, In (EvGet url bearer params) l ->
                 url = AMADEUS_BASE_URL e +:+ "/v1/shopping/activities"
                 /\ exists (la lo : float) r,
                      params = activity_params la lo r
                      /\ (exists s, args !! "latitude" = Some s /\ float_of_str e s = Return la)
                      /\ (la <? -90)%float = false /\ (90 <? la)%float = false
                      /\ (exists s, args !! "longitude" = Some s
                                    /\ float_of_str e s = Return lo)
                      /\ (lo <? -180)%float = false /\ (180 <? lo)%float = false
                      /\ 1 <= r <= 100
                      /\ (args !! "radius" = None \/ args !! "radius" = Some "" -> r = 20)).
  { exists []. rewrite app_nil_r. split; [reflexivity|]. intros ? ? ? []. }
  rewrite search_activities_eval.
  destruct (negb (activity_required args)); [exact Hnone|].
  pose proof (activity_validation_cases (float_of_str e) (args !! "latitude")
                (args !! "longitude") (default "20" (args !! "radius"))) as H.
  destruct (activity_validation _ _ _ _) as [[[[la lo] r]|bad]|x];
    [|exact Hnone|exact Hnone].
  destruct H as (Hla & Hlo & Hr).
  rewrite answer_world.
  destruct (make_amadeus_request_trace "/v1/shopping/activities"
              (activity_params la lo r) e w) as (l & Hl & Hget).
  exists l. split; [exact Hl|]. intros url b p Hin.
  destruct (Hget _ _ _ Hin) as [-> ->]. split; [reflexivity|].
  exists la, lo, r. split; [reflexivity|].
  apply validate_latitude_returns in Hla as ((s1 & H1 & _ & Hf1) & ? & ?).
  apply validate_longitude_returns in Hlo as ((s2 & H2 & _ & Hf2) & ? & ?).
  pose proof (validate_radius_returns _ _ Hr) as Hr'.
  repeat split; eauto.
  - destruct Hr' as [[_ ->] | [_ ?]]; lia.
  - destruct Hr' as [[_ ->] | [_ ?]]; lia.
  - intros [Hnone' | Hempty].
    + rewrite Hnone' in Hr. vm_compute in Hr. congruence.
    + rewrite Hempty in Hr. vm_compute in Hr. congruence.
Qed.

Lemma make_amadeus_request_cached_eval ep params e w :
  credential_fresh e w = true ->
  make_amadeus_request ep params e w =
  let w2 := log (EvGet (AMADEUS_BASE_URL e +:+ ep) (access_token w) params) (tick w) in
  match reply_at e (length (trace w)) with
  | NetworkFailure => (Return JNull, w2)
  | Response st b =>
      if (400 <=? st) && (st <? 600) then (Return JNull, w2)
      else match b with
           | NotJson => (Return JNull, w2)
           | Json v => (Return v, w2)
           end
  end.
Proof.
  intros Hf. rewrite make_amadeus_request_eval, get_amadeus_token_cached by assumption.
  now rewrite (credential_fresh_truthy e w Hf).
Qed.

(** X9. With a served token and the required parameters present, the flights
    view answers 404 "No flights found" after exactly one GET whenever the
    upstream call fails (no connection, a 4xx or 5xx status, a body that is
    not JSON) or returns an object without [data]. *)
Theorem upstream_failure_answers_not_found args e w :
  credential_fresh e w = true -> flight_required args = true ->
  reply_at e (length (trace w)) = NetworkFailure
  \/ (exists st b, reply_at e (length (trace w)) = Response st b /\ 400 <= st < 600)
  \/ (exists st, reply_at e (length (trace w)) = Response st NotJson)
  \/ (exists st d, reply_at e (length (trace w)) = Response st (Json (JDict d))
                   /\ d !! "data" = None) ->
  exists params,
    search_flights args e w
    = (Return (not_found "No flights found"),
       log (EvGet (AMADEUS_BASE_URL e +:+ "/v2/shopping/flight-offers") (access_token w)
              params) (tick w)).
Proof.
  intros Hf Hreq Hreply. eexists.
  rewrite search_flights_eval, Hreq. cbn [negb].
  rewrite make_amadeus_request_cached_eval by assumption. cbv zeta.
  destruct Hreply as [-> | [(st & b & -> & Hst) | [(st & ->) | (st & d & -> & Hd)]]].
  - reflexivity.
  - destruct (Z.leb_spec 400 st), (Z.ltb_spec st 600); try lia. reflexivity.
  - destruct ((400 <=? st) && (st <? 600)); reflexivity.
  - destruct ((400 <=? st) && (st <? 600)); [reflexivity|].
    unfold answer.
    rewrite search_result_object, Hd.
    reflexivity.
Qed.

Lemma upstream_failure_answers_not_found_witness :
  exists params,
    search_flights flight_args (sample_env [] [1999]) cached_world
    = (Return (not_found "No flights found"),
       log (EvGet "https://test.api.amadeus.com/v2/shopping/flight-offers"
              (JStr "cached-token") params) (tick cached_world)).
Proof.
  exact (upstream_failure_answers_not_found flight_args (sample_env [] [1999]) cached_world
           eq_refl eq_refl (or_introl eq_refl)).
Defined.

(** What a call that returns a usable token leaves in the cache. *)
Lemma get_amadeus_token_returns e w tok w' :
  get_amadeus_token e w = (Return tok, w') -> truthy tok = true ->
  access_token w' = tok
  /\ ((credential_fresh e w = true /\ w' = tick w)
      \/ (credential_fresh e w = false
          /\ ticks w' = S (ticks (after_cache_check w))
          /\ exists n,
               token_expires_at w'
               = Some (now_at e (ticks (after_cache_check w))
                       + seconds (Z.max (n - 300) 60)))).
Proof.
  destruct (credential_fresh e w) eqn:Hf.
  - rewrite get_amadeus_token_cached by assumption. intros [= <- <-] _. auto.
  - rewrite get_amadeus_token_refresh by assumption. cbv zeta.
    assert (Hnull : forall w0, (Return JNull, w0) = (Return tok, w') -> truthy tok = true ->
              access_token w' = tok
              /\ ((false = true /\ w' = tick w)
                  \/ (false = false
                      /\ ticks w' = S (ticks (after_cache_check w))
                      /\ exists n,
                           token_expires_at w'
                           = Some (now_at e (ticks (after_cache_check w))
                                   + seconds (Z.max (n - 300) 60))))).
    { intros w0 [= <- _] Ht. discriminate Ht. }
    assert (Hexn : forall x w0,
              (if is_RequestException x then Return JNull else Raise x, w0)
              = (Return tok, w') -> truthy tok = true -> False).
    { intros x w0. destruct (is_RequestException x); [|discriminate].
      intros [= <- _] Ht. discriminate Ht. }
    destruct (reply_at e (length (trace w))) as [|st b]; [apply Hnull|].
    destruct ((400 <=? st) && (st <? 600)); [apply Hnull|].
    destruct b as [|v]; [apply Hnull|].
    destruct (_ ≫= _) as [[tok0 n]|x] eqn:Hparse;
      [|intros H Ht; now destruct (Hexn _ _ H Ht)].
    unfold mbind, outcome_bind, timedelta_seconds.
    destruct (999999999 <? _); cbn [obind is_RequestException]; [discriminate|].
    unfold datetime_add.
    match goal with |- context [if ?c then Raise OverflowError else _] => destruct c end;
      cbn [is_RequestException]; [discriminate|].
    intros [= <- <-] _. split; [reflexivity|]. right. split; [reflexivity|].
    split; [reflexivity|]. exists n. reflexivity.
Qed.

(** X11. Whenever [get_amadeus_token] returns a usable token, that token is
    the cached one, and the cached expiry is strictly after the last clock
    reading the call made. *)
Theorem returned_token_is_cached_and_unexpired e w tok w' :
  get_amadeus_token e w = (Return tok, w') -> truthy tok = true ->
  access_token w' = tok
  /\ exists k expires,
       ticks w' = S k /\ token_expires_at w' = Some expires /\ now_at e k < expires.
Proof.
  intros H Ht. destruct (get_amadeus_token_returns e w tok w' H Ht) as [Ha Hc].
  split; [exact Ha|].
  destruct Hc as [[Hf ->] | (Hf & Hticks & n & Hexp)].
  - unfold credential_fresh in Hf. apply andb_true_iff in Hf as [_ Hf].
    destruct (token_expires_at w) as [x|] eqn:Hx; [|discriminate].
    exists (ticks w), x. cbn. apply Z.ltb_lt in Hf. auto.
  - eexists _, _. split; [exact Hticks|]. split; [exact Hexp|]. unfold seconds. lia.
Qed.

Lemma returned_token_is_cached_and_unexpired_witness :
  access_token (tick cached_world) = JStr "cached-token"
  /\ exists k expires,
       ticks (tick cached_world) = S k
       /\ token_expires_at (tick cached_world) = Some expires
       /\ now_at (sample_env [] [1999]) k < expires.
Proof.
  exact (returned_token_is_cached_and_unexpired (sample_env [] [1999]) cached_world
           (JStr "cached-token") (tick cached_world) eq_refl eq_refl).
Defined.

(** X10. After a refresh that returned a usable token, the next call whose clock
    reading is less than 60 seconds after the reading of the refresh returns
    the same token without any network call. *)
Theorem refreshed_token_is_served_from_cache e w tok w' :
  credential_fresh e w = false ->
  get_amadeus_token e w = (Return tok, w') -> truthy tok = true ->
  now_at e (ticks w') < now_at e (ticks (after_cache_check w)) + seconds 60 ->
  get_amadeus_token e w' = (Return tok, tick w').
Proof.
  intros Hf H Ht Hsoon.
  destruct (get_amadeus_token_returns e w tok w' H Ht) as [Ha Hc].
  destruct Hc as [[Hf' _] | (_ & _ & n & Hexp)]; [congruence|].
  rewrite get_amadeus_token_cached; [now rewrite Ha|].
  unfold credential_fresh. rewrite Ha, Ht, Hexp. cbn [andb].
  apply Z.ltb_lt. unfold seconds in *. lia.
Qed.

Lemma refreshed_token_is_served_from_cache_witness :
  let e := sample_env [token_reply [("access_token", JStr "tok")]] [5000000; 64999999] in
  let w' := (get_amadeus_token e fresh_world).2 in
  get_amadeus_token e w' = (Return (JStr "tok"), tick w').
Proof.
  cbv zeta.
  apply (refreshed_token_is_served_from_cache
           (sample_env [token_reply [("access_token", JStr "tok")]] [5000000; 64999999])
           fresh_world (JStr "tok")); [reflexivity|reflexivity|reflexivity|].
  vm_compute. reflexivity.
Defined.

(** X12. [make_amadeus_request] makes at most two network calls: at most one
    POST to the token endpoint, then at most one GET, of the given endpoint
    with the given parameters and a bearer token that is not empty. *)
Theorem gateway_makes_at_most_two_calls ep params e w :
  exists l, trace (make_amadeus_request ep params e w).2 = (trace w ++ l)%list
    /\ (l = [] \/ l = [EvPost (token_url e)]
        \/ exists bearer, truthy bearer = true
             /\ (l = [EvGet (AMADEUS_BASE_URL e +:+ ep) bearer params]
                 \/ l = [EvPost (token_url e);
                         EvGet (AMADEUS_BASE_URL e +:+ ep) bearer params])).
Proof.
  rewrite make_amadeus_request_eval.
  pose proof (get_amadeus_token_trace e w) as Ht.
  destruct (get_amadeus_token e w) as [[token|x] w1]; cbn [snd] in Ht.
  - destruct (truthy token) eqn:Htok; cbn [negb].
    + cbv zeta.
      assert (Hw2 : trace (log (EvGet (AMADEUS_BASE_URL e +:+ ep) token params) w1)
                    = (trace w1 ++ [EvGet (AMADEUS_BASE_URL e +:+ ep) token params])%list)
        by reflexivity.
      destruct Ht as [Ht | Ht]; rewrite Ht in Hw2.
      * exists [EvGet (AMADEUS_BASE_URL e +:+ ep) token params]. split.
        -- repeat case_match; exact Hw2.
        -- right. right. exists token. auto.
      * exists [EvPost (token_url e); EvGet (AMADEUS_BASE_URL e +:+ ep) token params].
        split.
        -- rewrite <- app_assoc in Hw2. repeat case_match; exact Hw2.
        -- right. right. exists token. auto.
    + destruct Ht as [Ht | Ht]; cbn [snd]; rewrite Ht.
      * exists []. rewrite app_nil_r. auto.
      * eexists. split; [reflexivity|]. auto.
  - destruct Ht as [Ht | Ht]; cbn [snd]; rewrite Ht.
    + exists []. rewrite app_nil_r. auto.
    + eexists. split; [reflexivity|]. auto.
Qed.

Lemma flight_params_optional o d dd a tc rd al :
  flight_params o d dd a tc rd al !! "returnDate"
    = (if truthy_str rd then Some (PStr (param_str rd)) else None)
  /\ flight_params o d dd a tc rd al !! "includedAirlineCodes"
    = (if truthy_str al then Some (PStr (upper (param_str al))) else None)
  /\ flight_params o d dd a tc rd al !! "adults" = Some (PStr a)
  /\ flight_params o d dd a tc rd al !! "travelClass" = Some (PStr (upper tc))
  /\ flight_params o d dd a tc rd al !! "departureDate" = Some (PStr dd).
Proof.
  unfold flight_params. destruct (truthy_str rd), (truthy_str al); cbv zeta;
    repeat split;
    rewrite ?lookup_insert_eq, ?lookup_insert_ne by discriminate;
    try reflexivity.
Qed.

(** X13. In every GET of the flights view, [returnDate] and
    [includedAirlineCodes] are present exactly when the request had a
    non-empty returnDate, respectively airline (the latter upper-cased);
    [adults] defaults to "1", [travelClass] to "ECONOMY" and is upper-cased, and
    [departureDate] is passed as given. *)
Theorem flight_requests_optional_parameters args e w :
  exists l, trace (search_flights args e w).2 = (trace w ++ l)%list
    /\ forall url bearer params, In (EvGet url bearer params) l ->
         params !! "returnDate"
           = (if truthy_str (args !! "returnDate")
              then PStr <$> args !! "returnDate" else None)
         /\ params !! "includedAirlineCodes"
           = (if truthy_str (args !! "airline")
              then (fun s => PStr (upper s)) <$> args !! "airline" else None)
         /\ params !! "adults" = Some (PStr (default "1" (args !! "adults")))
         /\ params !! "travelClass"
           = Some (PStr (upper (default "ECONOMY" (args !! "travelClass"))))
         /\ params !! "departureDate" = PStr <$> args !! "departureDate".
Proof.
  rewrite search_flights_eval.
  destruct (flight_required args) eqn:Hreq; cbn [negb].
  - rewrite answer_world.
    destruct (make_amadeus_request_trace "/v2/shopping/flight-offers"
                (flight_params (param_str (args !! "origin"))
                   (param_str (args !! "destination"))
                   (param_str (args !! "departureDate")) (default "1" (args !! "adults"))
                   (default "ECONOMY" (args !! "travelClass")) (args !! "returnDate")
                   (args !! "airline")) e w) as (l & Hl & Hget).
    exists l. split; [exact Hl|]. intros url b p Hin.
    destruct (Hget _ _ _ Hin) as [_ ->].
    destruct (flight_params_optional (param_str (args !! "origin"))
                (param_str (args !! "destination")) (param_str (args !! "departureDate"))
                (default "1" (args !! "adults")) (default "ECONOMY" (args !! "travelClass"))
                (args !! "returnDate") (args !! "airline")) as (H1 & H2 & H3 & H4 & H5).
    rewrite H1, H2, H3, H4, H5.
    unfold flight_required, all_truthy in Hreq. cbn [forallb] in Hreq.
    apply andb_true_iff in Hreq as [_ Hreq]. apply andb_true_iff in Hreq as [_ Hreq].
    apply andb_true_iff in Hreq as [Hdd _].
    repeat split.
    + destruct (args !! "returnDate"); [reflexivity|discriminate || reflexivity].
    + destruct (args !! "airline"); [reflexivity|discriminate || reflexivity].
    + destruct (args !! "departureDate"); [reflexivity|discriminate].
  - exists []. rewrite app_nil_r. split; [reflexivity|]. intros ? ? ? [].
Qed.

(** X15. A real calendar date followed by a newline passes the pattern of
    [validate_date] (its [$] accepts a final newline) and is then rejected by
    the parser: the error is "is not a valid date". *)
Theorem date_with_trailing_newline_rejected s field :
  real_calendar_date s = true ->
  validate_date (Some (s +:+ String newline "")) field
  = Raise (ValueError (field +:+ " is not a valid date")).
Proof.
  unfold real_calendar_date, YYYY_MM_DD.
  do 10 (destruct s as [|? s]; [cbn; discriminate|]).
  destruct s as [|? ?]; [|cbn; discriminate].
  cbn [chars list_ascii_of_string].
  repeat match goal with
  | |- context [is_digit ?c && _] =>
      destruct (is_digit c) eqn:?; cbn [andb]; [|discriminate]
  | |- context [Ascii.eqb ?c "-" && _] =>
      destruct (Ascii.eqb_spec c "-"); cbn [andb]; [subst c|discriminate]
  end.
  destruct (is_digit a8) eqn:?; [|discriminate].
  intros _.
  pose proof (strptime_Ymd_shape a a0 a1 a2 a4 a5 a7 a8 [newline]
                ltac:(repeat constructor; assumption)) as Hs.
  cbn [string_of_list_ascii app] in Hs. cbv zeta in Hs.
  rewrite andb_false_r in Hs. destruct Hs as [msg Hs].
  unfold validate_date, re_match. rewrite date_regex_shape.
  change (String a (String a0 (String a1 (String a2 (String "-" (String a4
            (String a5 (String "-" (String a7 (String a8 ""))))))))) +:+ String newline "")
    with (String a (String a0 (String a1 (String a2 (String "-" (String a4
            (String a5 (String "-" (String a7 (String a8 (String newline "")))))))))))
    .
  rewrite Hs.
  cbn [chars list_ascii_of_string truthy_str String.eqb negb orb date_shape].
  repeat match goal with H : is_digit _ = true |- _ => rewrite H; clear H end.
  reflexivity.
Qed.

Lemma date_with_trailing_newline_rejected_witness :
  validate_date (Some ("2025-08-20" +:+ String newline "")) "checkInDate"
  = Raise (ValueError "checkInDate is not a valid date").
Proof. exact (date_with_trailing_newline_rejected "2025-08-20" "checkInDate" eq_refl). Defined.

(** X16. The health view reports "valid" without any network call while the
    cached credential is fresh; when the refresh fails (no connection, 4xx or
    5xx, not JSON) it reports "invalid" after exactly one POST. Both answers
    have status 200. *)
Theorem health_reports_token_state e w :
  (credential_fresh e w = true ->
     health_check e w
     = (Return (jsonify [("status", JStr "healthy");
                         ("amadeus_env", JStr (AMADEUS_ENV e));
                         ("amadeus_token", JStr "valid");
                         ("timestamp", JInt (now_at e (S (ticks w))))], 200),
        tick (tick w)))
  /\ (credential_fresh e w = false ->
      reply_at e (length (trace w)) = NetworkFailure
      \/ (exists st b, reply_at e (length (trace w)) = Response st b /\ 400 <= st < 600)
      \/ (exists st, reply_at e (length (trace w)) = Response st NotJson) ->
      exists t,
        health_check e w
        = (Return (jsonify [("status", JStr "healthy");
                            ("amadeus_env", JStr (AMADEUS_ENV e));
                            ("amadeus_token", JStr "invalid");
                            ("timestamp", JInt t)], 200),
           tick (log (EvPost (token_url e)) (after_cache_check w)))).
Proof.
  split.
  - intros Hf. unfold health_check. munfold.
    rewrite get_amadeus_token_cached by assumption.
    now rewrite (credential_fresh_truthy e w Hf).
  - intros Hf Hreply. eexists. unfold health_check. munfold.
    rewrite refresh_failures_handled by assumption. reflexivity.
Qed.

Lemma health_reports_token_state_witness :
  (health_check (sample_env [] [1999; 2000]) cached_world).1
  = Return (jsonify [("status", JStr "healthy"); ("amadeus_env", JStr "test");
                     ("amadeus_token", JStr "valid"); ("timestamp", JInt 2000)], 200)
  /\ exists t,
       health_check (sample_env [Response 503 NotJson] []) fresh_world
       = (Return (jsonify [("status", JStr "healthy"); ("amadeus_env", JStr "test");
                           ("amadeus_token", JStr "invalid"); ("timestamp", JInt t)], 200),
          tick (log (EvPost "https://test.api.amadeus.com/v1/security/oauth2/token")
                  fresh_world)).
Proof.
  split.
  - now rewrite (proj1 (health_reports_token_state (sample_env [] [1999; 2000]) cached_world)
                   eq_refl).
  - exact (proj2 (health_reports_token_state (sample_env [Response 503 NotJson] []) fresh_world)
             eq_refl (or_intror (or_intror (ex_intro _ 503 eq_refl)))).
Defined.

(** X17. With a served token and the required parameters present, an upstream
    reply outside 4xx/5xx whose JSON object has [data] makes the flights view
    answer 200 with that data, [meta] (the empty object when absent) and the
    source, after exactly one GET. *)
Theorem upstream_data_is_passed_through args e w st d data :
  credential_fresh e w = true -> flight_required args = true ->
  reply_at e (length (trace w)) = Response st (Json (JDict d)) ->
  ~ 400 <= st < 600 ->
  d !! "data" = Some data ->
  exists params,
    search_flights args e w
    = (Return (jsonify [("success", JBool true); ("data", data);
                        ("meta", default (JDict ∅) (d !! "meta"));
                        ("source", JStr "Amadeus")], 200),
       log (EvGet (AMADEUS_BASE_URL e +:+ "/v2/shopping/flight-offers") (access_token w)
              params) (tick w)).
Proof.
  intros Hf Hreq Hreply Hst Hd. eexists.
  rewrite search_flights_eval, Hreq. cbn [negb].
  rewrite make_amadeus_request_cached_eval by assumption. cbv zeta. rewrite Hreply.
  destruct (Z.leb_spec 400 st), (Z.ltb_spec st 600); cbn [andb]; try lia;
    unfold answer; rewrite search_result_object, Hd; reflexivity.
Qed.

Lemma upstream_data_is_passed_through_witness :
  exists params,
    search_flights flight_args (sample_env [offers_reply] [1999]) cached_world
    = (Return (jsonify [("success", JBool true); ("data", JList [JStr "offer-1"]);
                        ("meta", JDict ∅); ("source", JStr "Amadeus")], 200),
       log (EvGet "https://test.api.amadeus.com/v2/shopping/flight-offers"
              (JStr "cached-token") params) (tick cached_world)).
Proof.
  exact (upstream_data_is_passed_through flight_args (sample_env [offers_reply] [1999])
           cached_world 200 (list_to_map [("data", JList [JStr "offer-1"])])
           (JList [JStr "offer-1"]) eq_refl eq_refl eq_refl
           ltac:(vm_compute; intuition congruence) eq_refl).
Defined.

Example hotels_normalise_city_code :
  trace (search_hotels hotel_args (sample_env [] [1999]) cached_world).2
  = [EvGet "https://test.api.amadeus.com/v3/shopping/hotel-offers" (JStr "cached-token")
       (hotel_params "LAX" "2025-08-20" "2025-08-22" 1 1)].
Proof. reflexivity. Qed.

Example activities_default_radius :
  trace (search_activities activity_args (sample_env [] [1999]) cached_world).2
  = [EvGet "https://test.api.amadeus.com/v1/shopping/activities" (JStr "cached-token")
       (activity_params 40.5 (-74) 20)].
Proof. reflexivity. Qed.
